(** * FinancialDataProcessing: price-series ingestion and numeric helpers

    A shallow embedding of [FinancialDataProcessing/data.py] and
    [FinancialDataProcessing/utils.py].

    - Python floats are IEEE binary64 numbers: Rocq's primitive floats.
    - A pandas [DataFrame] is a mutable object.  Frames live in a store and
      the code manipulates references to them, so that the difference between
      [df.drop(..., inplace=True)] (mutates the object the caller holds) and
      [df.ffill()] (allocates a new object) is visible.
    - A raised exception is a value of [exn]; code that can raise runs in
      [result], code that also touches frames runs in [py]. *)

From Stdlib Require Import ZArith String Ascii List Lia.
From Stdlib Require Import Uint63 PrimFloat FloatOps SpecFloat FloatAxioms.
From Stdlib Require Import Decimal DecimalString DecimalN DecimalPos.
From stdpp Require Import base option list strings gmap.

Local Open Scope string_scope.
Local Open Scope list_scope.

(** ** Exceptions and the two monads *)

Inductive exn : Type :=
| KeyError (label : string)
| ValueError (msg : string)
| TypeError (msg : string)
| IndexError
| ZeroDivisionError
| ReferenceError (* a reference to no object: unreachable from Python code *)
| ExternalError (msg : string) (* raised inside a collaborator *).

Inductive result (A : Type) : Type :=
| Ok (a : A)
| Raise (e : exn).
Arguments Ok {A} a.
Arguments Raise {A} e.

#[global] Instance result_ret : MRet result := λ A a, Ok a.
#[global] Instance result_bind : MBind result := λ A B f m,
  match m with
  | Ok a => f a
  | Raise e => Raise e
  end.

(** ** Scalars, columns and the two fills *)

(** What a cell of a frame can hold.  [SNum nan], [SNone] (Python's [None])
    and [SNaT] are the missing values of pandas. *)
Inductive scalar : Type :=
| SNum (x : float)
| SInt (n : Z)
| SStr (s : string)
| STime (t : Z)
| SNone
| SNaT.

Definition isna (c : scalar) : bool :=
  match c with
  | SNum x => is_nan x
  | SNone | SNaT => true
  | SInt _ | SStr _ | STime _ => false
  end.

(** [Series.ffill] is the pad loop of pandas: [val] starts as the first
    cell; a missing cell is overwritten with [val], a valid cell becomes the
    new [val].  A gap so takes the last valid value before it, and the cells
    of a leading run of missing values all become the first cell. *)
Fixpoint ffill_from (val : scalar) (l : list scalar) : list scalar :=
  match l with
  | [] => []
  | c :: l' =>
      if isna c
      then val :: ffill_from val l'
      else c :: ffill_from c l'
  end.

Definition ffill (l : list scalar) : list scalar :=
  match l with
  | [] => []
  | c :: _ => ffill_from c l
  end.

(** [Series.bfill]: the same loop run from the last cell to the first.  A
    gap takes the next valid value after it, and the cells of a trailing run
    of missing values all become the last cell. *)
Fixpoint bfill (l : list scalar) : list scalar :=
  match l with
  | [] => []
  | c :: l' =>
      let r := bfill l' in
      (if isna c
       then match r with
            | v :: _ => v
            | [] => c
            end
       else c) :: r
  end.

(** ** Frames and the store *)

Record DataFrame : Type := mkDataFrame {
  index : list scalar;
  columns : list (string * list scalar)
}.

Definition labels (d : DataFrame) : list string := (columns d).*1.

Definition column (d : DataFrame) (label : string) : option (list scalar) :=
  (λ p, p.2.2) <$> list_find (λ c, c.1 = label) (columns d).

(** References are positions in the store; allocation appends. *)
Abbreviation ref := nat.
Abbreviation heap := (list DataFrame).

Definition py (A : Type) : Type := heap → result (A * heap).

#[global] Instance py_ret : MRet py := λ A a h, Ok (a, h).
#[global] Instance py_bind : MBind py := λ A B f m h,
  match m h with
  | Ok (a, h') => f a h'
  | Raise e => Raise e
  end.

Definition lift {A : Type} (r : result A) : py A := λ h,
  match r with
  | Ok a => Ok (a, h)
  | Raise e => Raise e
  end.

Definition deref (r : ref) : py DataFrame := λ h,
  match h !! r with
  | Some d => Ok (d, h)
  | None => Raise ReferenceError
  end.

Definition assign (r : ref) (d : DataFrame) : py unit := λ h,
  Ok (tt, <[r := d]> h).

Definition alloc (d : DataFrame) : py ref := λ h,
  Ok (List.length h, h ++ [d]).

(** A method either reads the frame behind a reference, changes it in
    place, or builds a new frame from it. *)
Definition inspect {A : Type} (df : ref) (f : DataFrame → result A) : py A :=
  d ← deref df; lift (f d).

Definition update (df : ref) (f : DataFrame → result DataFrame) : py unit :=
  d ← deref df; d' ← lift (f d); assign df d'.

Definition derive (df : ref) (f : DataFrame → DataFrame) : py ref :=
  d ← deref df; alloc (f d).

(** ** The pandas operations the module calls *)

(** [df.columns] *)
Definition df_columns (df : ref) : py (list string) :=
  inspect df (λ d, Ok (labels d)).

(** [df.drop(columns=cols, inplace=True)]: a label that is not a column is a
    [KeyError]; every column carrying one of the labels goes. *)
Definition frame_drop (cols : list string) (d : DataFrame) : result DataFrame :=
  match list_find (λ l, l ∉ labels d) cols with
  | Some (_, l) => Raise (KeyError l)
  | None =>
      Ok {| index := index d;
            columns := filter (λ c, c.1 ∉ cols) (columns d) |}
  end.

Definition df_drop_inplace (df : ref) (cols : list string) : py unit :=
  update df (frame_drop cols).

(** [df.ffill()] and [df.bfill()]: a new frame, every column filled. *)
Definition frame_ffill (d : DataFrame) : DataFrame :=
  {| index := index d; columns := prod_map id ffill <$> columns d |}.

Definition frame_bfill (d : DataFrame) : DataFrame :=
  {| index := index d; columns := prod_map id bfill <$> columns d |}.

Definition df_ffill (df : ref) : py ref := derive df frame_ffill.
Definition df_bfill (df : ref) : py ref := derive df frame_bfill.

(** [df.rename(columns={old: new})]: a new frame; an absent [old] is ignored. *)
Definition frame_rename (old new : string) (d : DataFrame) : DataFrame :=
  {| index := index d;
     columns := prod_map (λ l, if decide (l = old) then new else l) id
                  <$> columns d |}.

Definition df_rename (df : ref) (old new : string) : py ref :=
  derive df (frame_rename old new).

(** [df.columns = names]: the number of names must be the number of columns. *)
Definition frame_set_columns (names : list string) (d : DataFrame)
    : result DataFrame :=
  if decide (length names = length (columns d))
  then Ok {| index := index d; columns := zip names (columns d).*2 |}
  else Raise (ValueError "Length mismatch").

Definition df_set_columns (df : ref) (names : list string) : py unit :=
  update df (frame_set_columns names).

(** [df[label]] *)
Definition frame_getitem (label : string) (d : DataFrame)
    : result (list scalar) :=
  match column d label with
  | Some values => Ok values
  | None => Raise (KeyError label)
  end.

Definition df_getitem (df : ref) (label : string) : py (list scalar) :=
  inspect df (frame_getitem label).

(** [df[label] = values], where [values] is a series over the index of [df]:
    an existing column is replaced, a new one is appended. *)
Definition set_column (label : string) (values : list scalar)
    (cols : list (string * list scalar)) : list (string * list scalar) :=
  if decide (label ∈ cols.*1)
  then (λ c, if decide (c.1 = label) then (c.1, values) else c) <$> cols
  else cols ++ [(label, values)].

Definition frame_setitem (label : string) (values : list scalar)
    (d : DataFrame) : result DataFrame :=
  Ok {| index := index d; columns := set_column label values (columns d) |}.

Definition df_setitem (df : ref) (label : string) (values : list scalar)
    : py unit :=
  update df (frame_setitem label values).

(** [df.set_index(label, inplace=True)]: the column becomes the index and
    leaves the columns. *)
Definition frame_set_index (label : string) (d : DataFrame)
    : result DataFrame :=
  match column d label with
  | Some values =>
      Ok {| index := values;
            columns := filter (λ c, c.1 ≠ label) (columns d) |}
  | None => Raise (KeyError label)
  end.

Definition df_set_index_inplace (df : ref) (label : string) : py unit :=
  update df (frame_set_index label).

(** [a + b] on the cells of two text columns: text is concatenated, a
    missing operand is masked and gives a missing cell, numbers are added;
    mixing text and numbers is a [TypeError]. *)
Definition scalar_add (a b : scalar) : result scalar :=
  if isna a then Ok a
  else if isna b then Ok b
  else match a, b with
       | SStr x, SStr y => Ok (SStr (x ++ y)%string)
       | SNum x, SNum y => Ok (SNum (x + y))
       | SInt x, SInt y => Ok (SInt (x + y))
       | _, _ => Raise (TypeError "unsupported operand type(s) for +")
       end.

Definition series_add_scalar (s : list scalar) (b : scalar)
    : result (list scalar) :=
  mapM (λ a, scalar_add a b) s.

Definition series_add (s t : list scalar) : result (list scalar) :=
  mapM (λ ab, scalar_add ab.1 ab.2) (zip s t).

(** [pd.DataFrame(rates)] for a record array [rates], given as its fields in
    order: the frame gets a fresh range index. *)
Definition nrows (fields : list (string * list scalar)) : nat :=
  match fields with
  | [] => 0
  | (_, values) :: _ => length values
  end.

Definition pd_DataFrame (rates : list (string * list scalar)) : py ref :=
  alloc {| index := SInt <$> seqZ 0 (Z.of_nat (nrows rates)); columns := rates |}.

(** ** [data.drop_all_except] *)

Definition drop_all_except (df : ref) (keep_column : string) : py ref :=
  cols ← df_columns df;
  let columns_to_drop := filter (λ col, col ≠ keep_column) cols in
  df_drop_inplace df columns_to_drop;;
  df ← (df1 ← df_ffill df; df_bfill df1);
  mret df.

(** ** The three adapters of [data.py]

    The vendor client, the delimited-text reader, the timestamp parser and
    the terminal API are collaborators outside the module: they are the
    variables of this section. *)

(** The [MetaTrader5] package: its timeframe constants and the two history
    requests, which answer [None] when they fail. *)
Record MetaTrader5 : Type := {
  TIMEFRAME_M1 : Z; TIMEFRAME_M2 : Z; TIMEFRAME_M3 : Z; TIMEFRAME_M4 : Z;
  TIMEFRAME_M5 : Z; TIMEFRAME_M6 : Z; TIMEFRAME_M10 : Z; TIMEFRAME_M12 : Z;
  TIMEFRAME_M15 : Z; TIMEFRAME_M20 : Z; TIMEFRAME_M30 : Z;
  TIMEFRAME_H1 : Z; TIMEFRAME_H2 : Z; TIMEFRAME_H3 : Z; TIMEFRAME_H4 : Z;
  TIMEFRAME_H6 : Z; TIMEFRAME_H8 : Z; TIMEFRAME_H12 : Z;
  TIMEFRAME_D1 : Z; TIMEFRAME_W1 : Z; TIMEFRAME_MN1 : Z;
  copy_rates_range :
    string → Z → Z → Z → option (list (string * list scalar));
  copy_rates_from_pos :
    string → Z → Z → Z → option (list (string * list scalar))
}.

Definition daily_schema : list string :=
  ["Date"; "Open"; "High"; "Low"; "Price"; "TickVol"; "Vol"; "Spread"].

Definition intraday_schema : list string :=
  ["Date"; "Time"; "Open"; "High"; "Low"; "Price"; "TickVol"; "Vol"; "Spread"].

Section Adapters.

(** [yf.Ticker(symbol).history(start=, end=, interval=)] *)
Variable history :
  string → option string → option string → option string → result DataFrame.

(** [pd.read_csv(path, delimiter=)] *)
Variable read_csv : string → option string → result DataFrame.

(** [pd.to_datetime] on one cell, with its [unit] argument. *)
Variable to_datetime : option string → scalar → result scalar.

Variable mt5 : MetaTrader5.

Definition pd_to_datetime (unit : option string) (s : list scalar)
    : result (list scalar) :=
  mapM (to_datetime unit) s.

(** The frame [drop_all_except] returns is not bound to a name here: the
    adapter goes on with [rates], the object it passed in. *)
Definition get_yfinance_data (ticker_symbol : string)
    (start end_ timeframe : option string) (drop_other_column : bool)
    : py ref :=
  rates ← (d ← lift (history ticker_symbol start end_ timeframe); alloc d);
  (if drop_other_column
   then drop_all_except rates "Close";; mret tt
   else mret tt);;
  df ← df_rename rates "Close" "Price";
  mret df.

(** Here the frame [drop_all_except] returns is bound to [df]. *)
Definition get_csv_data (file_path : string) (delim : option string)
    (dailyBars drop_other_column : bool) : py ref :=
  df ← (d ← lift (read_csv file_path delim); alloc d);
  (if dailyBars
   then
     df_set_columns df daily_schema;;
     date ← df_getitem df "Date";
     datetime ← lift (pd_to_datetime None date);
     df_setitem df "Datetime" datetime
   else
     df_set_columns df intraday_schema;;
     date ← df_getitem df "Date";
     time ← df_getitem df "Time";
     text ← lift (date_ ← series_add_scalar date (SStr " ");
                  series_add date_ time);
     datetime ← lift (pd_to_datetime None text);
     df_setitem df "Datetime" datetime);;
  df_set_index_inplace df "Datetime";;
  df ← (if drop_other_column
        then drop_all_except df "Price"
        else mret df);
  mret df.

Definition timeframes : gmap string Z :=
  list_to_map
    [("M1", TIMEFRAME_M1 mt5); ("M2", TIMEFRAME_M2 mt5);
     ("M3", TIMEFRAME_M3 mt5); ("M4", TIMEFRAME_M4 mt5);
     ("M5", TIMEFRAME_M5 mt5); ("M6", TIMEFRAME_M6 mt5);
     ("M10", TIMEFRAME_M10 mt5); ("M12", TIMEFRAME_M12 mt5);
     ("M15", TIMEFRAME_M15 mt5); ("M20", TIMEFRAME_M20 mt5);
     ("M30", TIMEFRAME_M30 mt5); ("H1", TIMEFRAME_H1 mt5);
     ("H2", TIMEFRAME_H2 mt5); ("H3", TIMEFRAME_H3 mt5);
     ("H4", TIMEFRAME_H4 mt5); ("H6", TIMEFRAME_H6 mt5);
     ("H8", TIMEFRAME_H8 mt5); ("H12", TIMEFRAME_H12 mt5);
     ("D1", TIMEFRAME_D1 mt5); ("W1", TIMEFRAME_W1 mt5);
     ("MN1", TIMEFRAME_MN1 mt5)].

(** The messages the guards print go to standard output and are left out.
    As in the vendor adapter, the result of [drop_all_except] is dropped. *)
Definition get_mt5_data (authorized : bool) (symbol timeframe : string)
    (start_date end_date start_pos end_pos : option Z)
    (drop_other_column : bool) : py (option ref) :=
  if negb authorized then mret None
  else
    match timeframes !! timeframe with
    | None => mret None
    | Some bar_time =>
        let rates := None in
        let rates :=
          match start_date, end_date with
          | Some s, Some e => copy_rates_range mt5 symbol bar_time s e
          | _, _ => rates
          end in
        let rates :=
          match start_pos, end_pos with
          | Some s, Some e => copy_rates_from_pos mt5 symbol bar_time s e
          | _, _ => rates
          end in
        match rates with
        | None => mret None
        | Some rates =>
            df ← pd_DataFrame rates;
            time ← df_getitem df "time";
            datetime ← lift (pd_to_datetime (Some "s") time);
            df_setitem df "Datetime" datetime;;
            df_set_index_inplace df "Datetime";;
            (if drop_other_column
             then drop_all_except df "close";; mret tt
             else mret tt);;
            df ← df_rename df "close" "Price";
            mret (Some df)
        end
    end.

End Adapters.

(** ** Python's [format] on floats, as far as [utils.py] uses it

    The format specifications the module builds are [".2%"], [".2f"] and
    ["." + str(decimals) + "f"]: a dot, a precision and a presentation type. *)

Definition digit_of_ascii (c : ascii) : option (uint → uint) :=
  match c with
  | "0" => Some D0 | "1" => Some D1 | "2" => Some D2 | "3" => Some D3
  | "4" => Some D4 | "5" => Some D5 | "6" => Some D6 | "7" => Some D7
  | "8" => Some D8 | "9" => Some D9
  | _ => None
  end%char.

(** The leading decimal digits of a string, and what follows them. *)
Fixpoint get_integer (s : string) : uint * string :=
  match s with
  | EmptyString => (Nil, EmptyString)
  | String c s' =>
      match digit_of_ascii c with
      | Some digit => let '(d, rest) := get_integer s' in (digit d, rest)
      | None => (Nil, s)
      end
  end.

(** The largest precision [format] accepts; a larger one is a [ValueError].
    Running out of memory while the digits are written is not modelled. *)
Definition INT_MAX : Z := 2147483647.

(** The largest [Py_ssize_t] (64-bit build): the digits of the precision
    are read into one, and a number that does not fit is refused while it
    is read. *)
Definition PY_SSIZE_T_MAX : Z := 9223372036854775807.

Definition parse_format_spec (format_spec : string) : result (N * ascii) :=
  match format_spec with
  | String "." s =>
      match get_integer s with
      | (Nil, _) => Raise (ValueError "Format specifier missing precision")
      | (d, rest) =>
          let precision := N.of_uint d in
          if (PY_SSIZE_T_MAX <? Z.of_N precision)%Z
          then Raise (ValueError "Too many decimal digits in format string")
          else if (INT_MAX <? Z.of_N precision)%Z
          then Raise (ValueError "precision too big")
          else match rest with
               | String type EmptyString =>
                   if decide (type = "f"%char ∨ type = "%"%char)
                   then Ok (precision, type)
                   else Raise (ValueError "Unknown format code")
               | _ => Raise (ValueError "Invalid format specifier")
               end
      end
  | _ => Raise (ValueError "Invalid format specifier")
  end.

(** [num / den] rounded to the nearest integer, ties to even. *)
Definition round_half_even (num den : Z) : Z :=
  let q := (num / den)%Z in
  let r := (num mod den)%Z in
  if (2 * r <? den)%Z then q
  else if (2 * r =? den)%Z then (if Z.even q then q else q + 1)%Z
  else (q + 1)%Z.

(** [m * 2^e * 10^precision], rounded to an integer. *)
Definition scaled_mantissa (m : positive) (e : Z) (precision : N) : Z :=
  if (0 <=? e)%Z
  then (Z.pos m * 2 ^ e * 10 ^ Z.of_N precision)%Z
  else round_half_even (Z.pos m * 10 ^ Z.of_N precision) (2 ^ (- e)).

Fixpoint zeros (n : nat) : string :=
  match n with
  | O => EmptyString
  | S n' => String "0" (zeros n')
  end.

(** The digits of [q] with a point before the last [precision] of them. *)
Definition fixed_point (q : Z) (precision : N) : string :=
  let p := N.to_nat precision in
  let ds := NilZero.string_of_uint (N.to_uint (Z.to_N q)) in
  let ds := (zeros (S p - String.length ds) ++ ds)%string in
  let n := (String.length ds - p)%nat in
  if decide (p = 0%nat) then ds
  else (substring 0 n ds ++ "." ++ substring n p ds)%string.

Definition sign_text (negative : bool) : string :=
  if negative then "-" else "".

Definition format_fixed (x : float) (precision : N) : string :=
  match Prim2SF x with
  | S754_nan => "nan"
  | S754_infinity s => sign_text s ++ "inf"
  | S754_zero s => sign_text s ++ fixed_point 0 precision
  | S754_finite s m e =>
      sign_text s ++ fixed_point (scaled_mantissa m e precision) precision
  end%string.

Definition hundred : float := 100%float.

(** [format(x, format_spec)] *)
Definition format (x : float) (format_spec : string) : result string :=
  '(precision, type) ← parse_format_spec format_spec;
  if decide (type = "%"%char)
  then mret (format_fixed (x * hundred) precision ++ "%")%string
  else mret (format_fixed x precision).

(** [str(n)] for an integer *)
Definition str (n : Z) : string := NilZero.string_of_int (Z.to_int n).

(** ** [utils.py] *)

Definition to_percent (number : float) : result string :=
  if is_nan number then mret "-"
  else format number ".2%".

Definition to_percent_num (number : float) : result string :=
  if is_nan number then mret "-"
  else format (number * hundred) ".2f".

Definition to_float (number : float) (decimals : Z) : result string :=
  if is_nan number then mret "-"
  else
    let format_string := ("." ++ str decimals ++ "f")%string in
    format number format_string.

(** [s[i]] on a sequence *)
Definition getitem {A : Type} (s : list A) (i : nat) : result A :=
  match s !! i with
  | Some x => Ok x
  | None => Raise IndexError
  end.

(** [x / y] on Python floats: a zero divisor raises. *)
Definition truediv (x y : float) : result float :=
  if (y =? 0)%float then Raise ZeroDivisionError else Ok (x / y)%float.

Definition scale (val : float) (src dst : list float) : result float :=
  src0 ← getitem src 0;
  if (val <? src0)%float then getitem dst 0
  else
    src1 ← getitem src 1;
    if (src1 <? val)%float then getitem dst 1
    else
      q ← truediv (val - src0)%float (src1 - src0)%float;
      dst1 ← getitem dst 1;
      dst0 ← getitem dst 0;
      mret (q * (dst1 - dst0) + dst0)%float.

(** The binary64 number nearest to [a / b], for small non-negative integers. *)
Definition ratio (a b : Z) : float :=
  (of_uint63 (Uint63.of_Z a) / of_uint63 (Uint63.of_Z b))%float.

(** ** Vocabulary of the statements *)

Definition missing (c : scalar) : Prop := isna c = true.
Definition valid (c : scalar) : Prop := isna c = false.

(** What [drop(columns=..., inplace=True)] leaves of a frame, and a frame
    with every column filled forward and then backward. *)
Definition kept (d : DataFrame) (keep_column : string) : DataFrame :=
  {| index := index d;
     columns := filter (λ c, c.1 = keep_column) (columns d) |}.

Definition fill (values : list scalar) : list scalar := bfill (ffill values).

Definition filled (d : DataFrame) : DataFrame :=
  {| index := index d; columns := prod_map id fill <$> columns d |}.

(** A frame without rows. *)
Definition zero_rows (d : DataFrame) : Prop :=
  index d = [] ∧ Forall (λ c, c.2 = []) (columns d).

(** The codes [get_mt5_data] translates. *)
Definition timeframe_codes : list string :=
  ["M1"; "M2"; "M3"; "M4"; "M5"; "M6"; "M10"; "M12"; "M15"; "M20"; "M30";
   "H1"; "H2"; "H3"; "H4"; "H6"; "H8"; "H12"; "D1"; "W1"; "MN1"].

(** The text [get_csv_data] hands to [pd.to_datetime], row by row in file
    order: the first column of a daily file, the first and the second column
    joined by a space for an intraday file. *)
Definition csv_text (dailyBars : bool) (d : DataFrame) : result (list scalar) :=
  let cells := (columns d).*2 in
  if dailyBars then Ok (default [] (cells !! 0%nat))
  else
    date_ ← series_add_scalar (default [] (cells !! 0%nat)) (SStr " ");
    series_add date_ (default [] (cells !! 1%nat)).

(** ** Sample collaborators and inputs *)

Definition num (a b : Z) : scalar :=
  SNum (of_uint63 (Uint63.of_Z a) / of_uint63 (Uint63.of_Z b))%float.

(** Three daily bars whose middle close is missing. *)
Definition sample_bars : DataFrame :=
  {| index := [STime 0; STime 86400; STime 172800];
     columns := [("Open", [num 1 1; num 2 1; num 3 1]);
                 ("Close", [num 1 1; SNum nan; num 3 1]);
                 ("Volume", [SInt 10; SInt 20; SInt 30])] |}.

Definition sample_history (symbol : string) (start end_ interval : option string)
    : result DataFrame :=
  Ok sample_bars.

(** A source with no bar in the requested range. *)
Definition empty_bars : DataFrame :=
  {| index := [];
     columns := [("Open", []); ("High", []); ("Low", []); ("Close", []);
                 ("Volume", [])] |}.

Definition empty_history (symbol : string) (start end_ interval : option string)
    : result DataFrame :=
  Ok empty_bars.

(** Timestamps written as a run of digits; a space between date and time is
    skipped. *)
Definition sample_to_datetime (unit : option string) (c : scalar)
    : result scalar :=
  match c with
  | SInt t | STime t => Ok (STime t)
  | SStr s =>
      match get_integer s with
      | (Nil, _) => Raise (ValueError "Unknown datetime string format")
      | (d, EmptyString) => Ok (STime (Z.of_N (N.of_uint d)))
      | (d, String " " s') =>
          match get_integer s' with
          | (t, EmptyString) =>
              Ok (STime (Z.of_N (N.of_uint d) * 10000 + Z.of_N (N.of_uint t)))
          | _ => Raise (ValueError "Unknown datetime string format")
          end
      | _ => Raise (ValueError "Unknown datetime string format")
      end
  | SNum _ => Raise (TypeError "not convertible to datetime")
  | SNone | SNaT => Ok SNaT
  end.

Definition sample_rates : list (string * list scalar) :=
  [("time", [SInt 0; SInt 60; SInt 120]);
   ("open", [num 1 1; num 2 1; num 3 1]);
   ("high", [num 1 1; num 2 1; num 3 1]);
   ("low", [num 1 1; num 2 1; num 3 1]);
   ("close", [num 1 1; SNum nan; num 3 1]);
   ("tick_volume", [SInt 5; SInt 6; SInt 7]);
   ("spread", [SInt 1; SInt 1; SInt 1]);
   ("real_volume", [SInt 0; SInt 0; SInt 0])].

Definition sample_mt5 : MetaTrader5 :=
  {| TIMEFRAME_M1 := 1; TIMEFRAME_M2 := 2; TIMEFRAME_M3 := 3;
     TIMEFRAME_M4 := 4; TIMEFRAME_M5 := 5; TIMEFRAME_M6 := 6;
     TIMEFRAME_M10 := 10; TIMEFRAME_M12 := 12; TIMEFRAME_M15 := 15;
     TIMEFRAME_M20 := 20; TIMEFRAME_M30 := 30;
     TIMEFRAME_H1 := 16385; TIMEFRAME_H2 := 16386; TIMEFRAME_H3 := 16387;
     TIMEFRAME_H4 := 16388; TIMEFRAME_H6 := 16390; TIMEFRAME_H8 := 16392;
     TIMEFRAME_H12 := 16396; TIMEFRAME_D1 := 16408; TIMEFRAME_W1 := 32769;
     TIMEFRAME_MN1 := 49153;
     copy_rates_range := λ _ _ _ _, Some sample_rates;
     copy_rates_from_pos := λ _ _ _ _, Some sample_rates |}.

(** A daily file of three rows, and a file one column short. *)
Definition sample_daily_file : DataFrame :=
  {| index := [SInt 0; SInt 1; SInt 2];
     columns := [("<DATE>", [SStr "20240102"; SStr "20240103"; SStr "20240104"]);
                 ("<OPEN>", [num 1 1; num 2 1; num 3 1]);
                 ("<HIGH>", [num 1 1; num 2 1; num 3 1]);
                 ("<LOW>", [num 1 1; num 2 1; num 3 1]);
                 ("<CLOSE>", [num 1 1; SNum nan; num 3 1]);
                 ("<TICKVOL>", [SInt 5; SInt 6; SInt 7]);
                 ("<VOL>", [SInt 0; SInt 0; SInt 0]);
                 ("<SPREAD>", [SInt 1; SInt 1; SInt 1])] |}.

Definition sample_short_file : DataFrame :=
  {| index := index sample_daily_file;
     columns := take 7 (columns sample_daily_file) |}.

Definition sample_read_csv (d : DataFrame) (file_path : string)
    (delim : option string) : result DataFrame :=
  Ok d.

(** ** [utils.get_freq] *)

(** [str.upper] and [str.lower] on text made of ASCII characters: the
    letters change case, every other character stays. *)
Definition ascii_upper (c : ascii) : ascii :=
  let n := nat_of_ascii c in
  if (97 <=? n)%nat && (n <=? 122)%nat then ascii_of_nat (n - 32) else c.

Definition ascii_lower (c : ascii) : ascii :=
  let n := nat_of_ascii c in
  if (65 <=? n)%nat && (n <=? 90)%nat then ascii_of_nat (n + 32) else c.

Fixpoint upper (s : string) : string :=
  match s with
  | EmptyString => EmptyString
  | String c s' => String (ascii_upper c) (upper s')
  end.

Fixpoint lower (s : string) : string :=
  match s with
  | EmptyString => EmptyString
  | String c s' => String (ascii_lower c) (lower s')
  end.

(** Text whose characters are all ASCII, where the two functions above are
    Python's. *)
Fixpoint ascii_text (s : string) : Prop :=
  match s with
  | EmptyString => True
  | String c s' => (nat_of_ascii c < 128)%nat ∧ ascii_text s'
  end.

Definition period_table : list (string * string) :=
  [("B", "business day");
   ("C", "custom business day");
   ("D", "daily");
   ("WE", "weekly");
   ("ME", "monthly");
   ("YE", "Yearly");
   ("BM", "business month end");
   ("CBM", "custom business month end");
   ("MS", "month start");
   ("BMS", "business month start");
   ("CBMS", "custom business month start");
   ("Q", "quarterly");
   ("BQ", "business quarter end");
   ("QS", "quarter start");
   ("BQS", "business quarter start");
   ("Y", "yearly");
   ("A", "yearly");
   ("BA", "business year end");
   ("AS", "year start");
   ("BAS", "business year start");
   ("H", "hourly");
   ("T", "minutely");
   ("S", "secondly");
   ("L", "milliseconds");
   ("U", "microseconds")].

Definition get_freq (period : string) : option string :=
  let period := upper period in
  let periods : gmap string string := list_to_map period_table in
  periods !! period.

(** ** More sample collaborators *)

Definition failing_history (symbol : string) (start end_ interval : option string)
    : result DataFrame :=
  Raise (ExternalError "no connection").

Definition failing_read_csv (file_path : string) (delim : option string)
    : result DataFrame :=
  Raise (ExternalError "No such file or directory").

(** A daily file whose second date is not a date. *)
Definition sample_bad_date_file : DataFrame :=
  {| index := index sample_daily_file;
     columns := ("<DATE>", [SStr "20240102"; SStr "yesterday"; SStr "20240104"])
                :: drop 1 (columns sample_daily_file) |}.

(** The daily file under other header names. *)
Definition sample_renamed_file : DataFrame :=
  {| index := index sample_daily_file;
     columns := zip ["a"; "b"; "c"; "d"; "e"; "f"; "g"; "h"]
                    (columns sample_daily_file).*2 |}.

(** An intraday file of two bars on one day. *)
Definition sample_intraday_file : DataFrame :=
  {| index := [SInt 0; SInt 1];
     columns := [("<DATE>", [SStr "20240102"; SStr "20240102"]);
                 ("<TIME>", [SStr "0930"; SStr "0945"]);
                 ("<OPEN>", [num 1 1; num 2 1]);
                 ("<HIGH>", [num 1 1; num 2 1]);
                 ("<LOW>", [num 1 1; num 2 1]);
                 ("<CLOSE>", [SNum nan; num 2 1]);
                 ("<TICKVOL>", [SInt 5; SInt 6]);
                 ("<VOL>", [SInt 0; SInt 0]);
                 ("<SPREAD>", [SInt 1; SInt 1])] |}.

(** The schema [get_csv_data] selects. *)
Definition schema (dailyBars : bool) : list string :=
  if dailyBars then daily_schema else intraday_schema.

(** The field [name] of a record array. *)
Definition field (rates : list (string * list scalar)) (name : string)
    : option (list scalar) :=
  (λ p, p.2.2) <$> list_find (λ c, c.1 = name) rates.

(** A terminal that has no history. *)
Definition silent_mt5 : MetaTrader5 :=
  {| TIMEFRAME_M1 := 1; TIMEFRAME_M2 := 2; TIMEFRAME_M3 := 3;
     TIMEFRAME_M4 := 4; TIMEFRAME_M5 := 5; TIMEFRAME_M6 := 6;
     TIMEFRAME_M10 := 10; TIMEFRAME_M12 := 12; TIMEFRAME_M15 := 15;
     TIMEFRAME_M20 := 20; TIMEFRAME_M30 := 30;
     TIMEFRAME_H1 := 16385; TIMEFRAME_H2 := 16386; TIMEFRAME_H3 := 16387;
     TIMEFRAME_H4 := 16388; TIMEFRAME_H6 := 16390; TIMEFRAME_H8 := 16392;
     TIMEFRAME_H12 := 16396; TIMEFRAME_D1 := 16408; TIMEFRAME_W1 := 32769;
     TIMEFRAME_MN1 := 49153;
     copy_rates_range := λ _ _ _ _, Some sample_rates;
     copy_rates_from_pos := λ _ _ _ _, None |}.

(** Text made of decimal digits. *)
Fixpoint all_digits (s : string) : Prop :=
  match s with
  | EmptyString => True
  | String c s' => is_Some (digit_of_ascii c) ∧ all_digits s'
  end.

(** A record array without a [time] field. *)
Definition sample_untimed_rates : list (string * list scalar) :=
  drop 1 sample_rates.

Definition untimed_mt5 : MetaTrader5 :=
  {| TIMEFRAME_M1 := 1; TIMEFRAME_M2 := 2; TIMEFRAME_M3 := 3;
     TIMEFRAME_M4 := 4; TIMEFRAME_M5 := 5; TIMEFRAME_M6 := 6;
     TIMEFRAME_M10 := 10; TIMEFRAME_M12 := 12; TIMEFRAME_M15 := 15;
     TIMEFRAME_M20 := 20; TIMEFRAME_M30 := 30;
     TIMEFRAME_H1 := 16385; TIMEFRAME_H2 := 16386; TIMEFRAME_H3 := 16387;
     TIMEFRAME_H4 := 16388; TIMEFRAME_H6 := 16390; TIMEFRAME_H8 := 16392;
     TIMEFRAME_H12 := 16396; TIMEFRAME_D1 := 16408; TIMEFRAME_W1 := 32769;
     TIMEFRAME_MN1 := 49153;
     copy_rates_range := λ _ _ _ _, Some sample_untimed_rates;
     copy_rates_from_pos := λ _ _ _ _, Some sample_untimed_rates |}.

(** Bars whose first closes are missing. *)
Definition sample_late_bars : DataFrame :=
  {| index := [STime 0; STime 86400; STime 172800; STime 259200];
     columns := [("Close", [SNum nan; SNone; num 3 1; num 4 1]);
                 ("Volume", [SInt 0; SInt 0; SInt 30; SInt 40])] |}.

(** * Properties of the two fills *)

Section Fill.

Implicit Types (c v : scalar) (l : list scalar).

Lemma missing_or_valid c : {missing c} + {valid c}.
Proof. unfold missing, valid. destruct (isna c); [left | right]; done. Qed.

Lemma all_missing_or_some_valid l : Forall missing l ∨ Exists valid l.
Proof.
  induction l as [|c l [IH|IH]].
  - left. constructor.
  - destruct (missing_or_valid c).
    + left. by constructor.
    + right. by constructor.
  - right. by constructor 2.
Qed.

Lemma ffill_from_length val l : length (ffill_from val l) = length l.
Proof.
  revert val. induction l as [|c l IH]; intros val; simpl; [done|].
  destruct (isna c); simpl; by rewrite IH.
Qed.

Lemma ffill_length l : length (ffill l) = length l.
Proof. destruct l; [done|]. apply ffill_from_length. Qed.

Lemma bfill_length l : length (bfill l) = length l.
Proof. induction l as [|c l IH]; simpl; [done|]. by rewrite IH. Qed.

Lemma fill_length l : length (fill l) = length l.
Proof. unfold fill. by rewrite bfill_length, ffill_length. Qed.

Lemma ffill_from_valid_id val l :
  Forall valid l → ffill_from val l = l.
Proof.
  intros H. revert val. induction H as [|c l Hc _ IH]; intros val; simpl.
  - done.
  - rewrite Hc. by rewrite IH.
Qed.

Lemma bfill_valid_id l : Forall valid l → bfill l = l.
Proof.
  induction 1 as [|c l Hc _ IH]; simpl; [done|]. by rewrite Hc, IH.
Qed.

(** A run of missing cells becomes copies of the value carried along. *)
Lemma ffill_from_missing val l :
  Forall missing l → ffill_from val l = replicate (length l) val.
Proof.
  induction 1 as [|c l Hc _ IH]; simpl; [done|]. by rewrite Hc, IH.
Qed.

Lemma bfill_replicate n c : bfill (replicate n c) = replicate n c.
Proof.
  induction n as [|n IH]; [done|]. cbn [replicate bfill]. rewrite IH.
  destruct (isna c); [|done]. by destruct n.
Qed.

(** A column without a valid cell becomes copies of its first cell. *)
Lemma fill_missing c l :
  Forall missing (c :: l) → fill (c :: l) = replicate (S (length l)) c.
Proof.
  intros H. unfold fill, ffill.
  by rewrite (ffill_from_missing c (c :: l) H), bfill_replicate.
Qed.

Example fill_none_nan : fill [SNone; SNum nan] = [SNone; SNone].
Proof. reflexivity. Qed.

Lemma fill_keeps_missing l : Forall missing l → Forall missing (fill l).
Proof.
  intros H. destruct l as [|c l]; [done|]. rewrite fill_missing by done.
  apply Forall_replicate. by apply Forall_cons in H as [? _].
Qed.

(** Once a valid value is carried along, forward fill leaves no gap. *)
Lemma ffill_from_some_valid v l :
  valid v → Forall valid (ffill_from v l).
Proof.
  revert v. induction l as [|c l IH]; intros v Hv; simpl; [constructor|].
  destruct (isna c) eqn:Hc; constructor; simpl; auto.
Qed.

(** A backward fill whose rest is gap-free is gap-free. *)
Lemma bfill_cons_valid c l :
  l ≠ [] → Forall valid (bfill l) → Forall valid (bfill (c :: l)).
Proof.
  intros Hne H. simpl. constructor; [|done].
  destruct (bfill l) as [|v r] eqn:E.
  - apply (f_equal length) in E. rewrite bfill_length in E.
    by destruct l.
  - apply Forall_cons in H as [Hv _].
    by destruct (isna c) eqn:Hc.
Qed.

Lemma fill_from_resolves val l :
  Exists valid l → Forall valid (bfill (ffill_from val l)).
Proof.
  induction l as [|c l IH]; intros H; [by apply Exists_nil in H|].
  cbn [ffill_from]. destruct (isna c) eqn:Hc.
  - apply Exists_cons in H as [H|H]; [unfold valid in H; congruence|].
    apply bfill_cons_valid; [|by apply IH].
    intros E. apply (f_equal length) in E.
    rewrite ffill_from_length in E. destruct l; [|done].
    by apply Exists_nil in H.
  - assert (Forall valid (c :: ffill_from c l)) as Hall
      by (constructor; [done | by apply ffill_from_some_valid]).
    by rewrite bfill_valid_id.
Qed.

Lemma fill_resolves l : Exists valid l → Forall valid (fill l).
Proof.
  intros H. destruct l as [|c l]; [by apply Exists_nil in H|].
  by apply fill_from_resolves.
Qed.

Lemma fill_valid_id l : Forall valid l → fill l = l.
Proof.
  intros H. unfold fill, ffill. destruct l as [|c l]; [done|].
  rewrite ffill_from_valid_id by done. by apply bfill_valid_id.
Qed.

Lemma fill_idempotent l : fill (fill l) = fill l.
Proof.
  destruct (all_missing_or_some_valid l) as [H|H].
  - destruct l as [|c l]; [done|]. rewrite (fill_missing c l H).
    pose proof H as [Hc _]%Forall_cons.
    change (replicate (S (length l)) c) with (c :: replicate (length l) c).
    rewrite fill_missing; [by rewrite length_replicate|].
    constructor; [done|]. by apply Forall_replicate.
  - apply fill_valid_id. by apply fill_resolves.
Qed.

End Fill.

(** * Running code in the store *)

Lemma bind_run {A B : Type} (m : py A) (f : A → py B) (h : heap) :
  (m ≫= f) h
  = match m h with Ok (a, h') => f a h' | Raise e => Raise e end.
Proof. reflexivity. Qed.

Lemma bind_ok {A B : Type} (m : py A) (f : A → py B) (h : heap) a h' :
  m h = Ok (a, h') → (m ≫= f) h = f a h'.
Proof. intros H. by rewrite bind_run, H. Qed.

Lemma bind_raise {A B : Type} (m : py A) (f : A → py B) (h : heap) e :
  m h = Raise e → (m ≫= f) h = Raise e.
Proof. intros H. by rewrite bind_run, H. Qed.

Lemma inspect_run {A : Type} df (f : DataFrame → result A) (h : heap) d a :
  h !! df = Some d → f d = Ok a → inspect df f h = Ok (a, h).
Proof.
  intros H Hf. unfold inspect, deref. by rewrite bind_run, H, Hf.
Qed.

Lemma update_run df f (h : heap) d d' :
  h !! df = Some d → f d = Ok d' → update df f h = Ok (tt, <[df := d']> h).
Proof.
  intros H Hf. unfold update, deref. by rewrite !bind_run, H, Hf.
Qed.

Lemma update_raise df f (h : heap) d e :
  h !! df = Some d → f d = Raise e → update df f h = Raise e.
Proof.
  intros H Hf. unfold update, deref. by rewrite !bind_run, H, Hf.
Qed.

Lemma derive_run df f (h : heap) d :
  h !! df = Some d → derive df f h = Ok (length h, h ++ [f d]).
Proof. intros H. unfold derive, deref. by rewrite bind_run, H. Qed.

Lemma alloc_lookup (h : heap) d : (h ++ [d]) !! length h = Some d.
Proof. by rewrite list_lookup_middle. Qed.

(** * [drop_all_except] *)

Lemma drop_keeps_gen (ls : list string) (cols : list (string * list scalar))
    keep :
  Forall (λ c, c.1 ∈ ls) cols →
  filter (λ c, c.1 ∉ filter (λ col, col ≠ keep) ls) cols
  = filter (λ c, c.1 = keep) cols.
Proof.
  induction 1 as [|c cols Hc Hcols IH]; [done|].
  rewrite !filter_cons, IH.
  destruct (decide (c.1 = keep)) as [E|E].
  - rewrite decide_True; [done|]. rewrite list_elem_of_filter. by intros [? _].
  - rewrite decide_False; [done|]. intros Hn. apply Hn.
    by apply list_elem_of_filter.
Qed.

(** Dropping the labels that differ from [keep] never misses a label and
    leaves the columns labelled [keep]. *)
Lemma frame_drop_others d keep :
  frame_drop (filter (λ col, col ≠ keep) (labels d)) d = Ok (kept d keep).
Proof.
  unfold frame_drop.
  replace (list_find _ _) with (@None (nat * string)).
  - unfold kept, labels. f_equal. f_equal. apply drop_keeps_gen, Forall_forall.
    intros c Hc. by apply list_elem_of_fmap_2.
  - symmetry. apply list_find_None, Forall_forall. intros l Hl.
    apply list_elem_of_filter in Hl as [_ Hl]. by intros ?.
Qed.

Lemma frame_bfill_ffill d : frame_bfill (frame_ffill d) = filled d.
Proof.
  unfold filled, frame_bfill, frame_ffill. simpl. f_equal.
  rewrite <- list_fmap_compose. apply list_fmap_ext. by intros _ [l v] _.
Qed.

Lemma drop_all_except_run h df d keep :
  h !! df = Some d →
  drop_all_except df keep h
  = Ok (S (length h),
        <[df := kept d keep]> h
          ++ [frame_ffill (kept d keep); filled (kept d keep)]).
Proof.
  intros H.
  assert (df < length h)%nat as Hlt by (by eapply lookup_lt_Some).
  unfold drop_all_except, df_columns, df_drop_inplace, df_ffill, df_bfill.
  erewrite bind_ok; [|by eapply inspect_run].
  erewrite bind_ok; [|eapply update_run; [done | apply frame_drop_others]].
  set (h1 := <[df := kept d keep]> h).
  assert (h1 !! df = Some (kept d keep)) as H1
    by (by apply list_lookup_insert_eq).
  assert (length h1 = length h) as Hlen by apply length_insert.
  erewrite bind_ok; cycle 1.
  { erewrite bind_ok; [|by apply derive_run].
    apply derive_run, alloc_lookup. }
  rewrite frame_bfill_ffill, length_app, Hlen. simpl.
  rewrite <- (assoc_L (++)). simpl.
  unfold mret, py_ret. do 2 f_equal. lia.
Qed.

Lemma ffill_from_lookup_valid last (l : list scalar) i c :
  l !! i = Some c → valid c → ffill_from last l !! i = Some c.
Proof.
  revert last i. induction l as [|x l IH]; intros last i Hi Hc; [done|].
  simpl. destruct i as [|i]; simpl in *.
  - injection Hi as ->. by rewrite Hc.
  - destruct (isna x); simpl; by apply IH.
Qed.

Lemma bfill_lookup_valid (l : list scalar) i c :
  l !! i = Some c → valid c → bfill l !! i = Some c.
Proof.
  revert i. induction l as [|x l IH]; intros i Hi Hc; [done|].
  simpl. destruct i as [|i]; simpl in *.
  - injection Hi as ->. by rewrite Hc.
  - by apply IH.
Qed.

Lemma fill_lookup_valid (l : list scalar) i c :
  l !! i = Some c → valid c → fill l !! i = Some c.
Proof.
  intros Hi Hc. apply bfill_lookup_valid; [|done].
  unfold ffill. destruct l as [|x l]; [done|].
  by apply ffill_from_lookup_valid.
Qed.

Lemma filter_label_absent (cols : list (string * list scalar)) keep :
  keep ∉ cols.*1 → filter (λ c, c.1 = keep) cols = [].
Proof.
  induction cols as [|c cols IH]; [done|]. rewrite fmap_cons, not_elem_of_cons.
  intros [Hc Hcols]. rewrite filter_cons, decide_False by done. by apply IH.
Qed.

Lemma filter_label_all (cols : list (string * list scalar)) keep :
  Forall (λ c, c.1 = keep) cols → filter (λ c, c.1 = keep) cols = cols.
Proof.
  induction 1 as [|c cols Hc Hcols IH]; [done|].
  by rewrite filter_cons, decide_True, IH.
Qed.

Lemma filter_label_unique (cols : list (string * list scalar)) keep values :
  NoDup cols.*1 →
  (λ p, p.2.2) <$> list_find (λ c, c.1 = keep) cols = Some values →
  filter (λ c, c.1 = keep) cols = [(keep, values)].
Proof.
  induction cols as [|[l v] cols IH]; [done|].
  rewrite fmap_cons, NoDup_cons. intros [Hl Hnd]. simpl in *.
  rewrite filter_cons. simpl. destruct (decide (l = keep)) as [->|Hne]; simpl.
  - intros [= ->]. by rewrite filter_label_absent.
  - rewrite <- option_fmap_compose. intros H. by apply IH.
Qed.

Lemma kept_single d keep values :
  NoDup (labels d) → column d keep = Some values →
  kept d keep = {| index := index d; columns := [(keep, values)] |}.
Proof.
  intros Hnd Hc. unfold kept. f_equal. by apply filter_label_unique.
Qed.

Lemma kept_filled d keep : kept (filled (kept d keep)) keep = filled (kept d keep).
Proof.
  unfold kept, filled. simpl. f_equal. apply filter_label_all.
  apply Forall_fmap, Forall_forall. intros [l v] H. simpl.
  by apply list_elem_of_filter in H as [H _].
Qed.

Lemma filled_idempotent d : filled (filled d) = filled d.
Proof.
  unfold filled. simpl. f_equal. rewrite <- list_fmap_compose.
  apply list_fmap_ext. intros _ [l v] _. simpl. by rewrite fill_idempotent.
Qed.


Lemma drop_all_except_spec h df d keep :
  h !! df = Some d →
  ∃ h',
    drop_all_except df keep h = Ok (S (length h), h') ∧
    h' !! df = Some (kept d keep) ∧
    h' !! S (length h) = Some (filled (kept d keep)) ∧
    length h' = S (S (length h)) ∧
    (∀ r x, r ≠ df → h !! r = Some x → h' !! r = Some x).
Proof.
  intros H. eexists. split; [by apply drop_all_except_run|].
  assert (df < length h)%nat as Hlt by (by eapply lookup_lt_Some).
  set (h1 := <[df := kept d keep]> h).
  assert (length h1 = length h) as Hlen by apply length_insert.
  repeat split.
  - apply lookup_app_l_Some. by apply list_lookup_insert_eq.
  - rewrite lookup_app_r; rewrite Hlen; [|lia].
    by replace (S (length h) - length h)%nat with 1%nat by lia.
  - rewrite length_app, Hlen. simpl. lia.
  - intros r x Hr Hx. apply lookup_app_l_Some.
    unfold h1. by rewrite list_lookup_insert_ne.
Qed.

(** C3. For a table [d] (column labels distinct, as in a record set whose rows
    map column names to values) that has the column [keep_column],
    [drop_all_except] raises nothing and returns a table with that one
    column and the index of [d]: same row count, every valid entry where it
    was, no missing entry left as soon as one entry was valid, every entry
    still missing when every entry was missing, and an empty column for a
    table without rows. *)
Theorem drop_all_except_single_column h df d keep_column values :
  h !! df = Some d →
  NoDup (labels d) →
  column d keep_column = Some values →
  ∃ r h' values',
    drop_all_except df keep_column h = Ok (r, h') ∧
    h' !! r = Some {| index := index d; columns := [(keep_column, values')] |} ∧
    length values' = length values ∧
    (∀ i c, values !! i = Some c → valid c → values' !! i = Some c) ∧
    (Exists valid values → Forall valid values') ∧
    (Forall missing values → Forall missing values') ∧
    (values = [] → values' = []).
Proof.
  intros H Hnd Hc.
  destruct (drop_all_except_spec h df d keep_column H) as (h' & Hrun & _ & Hr & _).
  rewrite (kept_single _ _ _ Hnd Hc) in Hr.
  exists (S (length h)), h', (fill values).
  split; [done|]. split; [done|].
  split; [apply fill_length|].
  split; [apply fill_lookup_valid|].
  split; [apply fill_resolves|].
  split; [apply fill_keeps_missing|].
  by intros ->.
Qed.

Lemma NoDup_sample_bars : NoDup (labels sample_bars).
Proof. apply (bool_decide_unpack _). vm_compute. exact I. Qed.

Lemma drop_all_except_single_column_witness :
  ∃ r h' values',
    drop_all_except 0 "Close" [sample_bars] = Ok (r, h') ∧
    h' !! r = Some {| index := index sample_bars;
                      columns := [("Close", values')] |} ∧
    Forall valid values'.
Proof.
  destruct (drop_all_except_single_column [sample_bars] 0 sample_bars "Close"
              [num 1 1; SNum nan; num 3 1])
    as (r & h' & values' & Hrun & Hr & _ & _ & Hvalid & _).
  - reflexivity.
  - exact NoDup_sample_bars.
  - reflexivity.
  - exists r, h', values'. split; [exact Hrun|]. split; [exact Hr|].
    apply Hvalid. constructor. reflexivity.
Defined.

(** C4. For every table, [drop_all_except] changes the caller's object only
    by removing the columns other than [keep_column]; the filled table is a
    new object, no other object changes, and the caller's object (one column
    when the labels are distinct and [keep_column] is among them) keeps the
    values, missing ones included, that the column had before the call. *)
Theorem drop_all_except_fills_only_the_copy h df d keep_column :
  h !! df = Some d →
  ∃ r h',
    drop_all_except df keep_column h = Ok (r, h') ∧
    h' !! df = Some {| index := index d;
                       columns := filter (λ c, c.1 = keep_column) (columns d) |} ∧
    h !! r = None ∧
    r ≠ df ∧
    h' !! r = Some (filled (kept d keep_column)) ∧
    (∀ r' x, r' ≠ df → h !! r' = Some x → h' !! r' = Some x) ∧
    (∀ values,
       NoDup (labels d) → column d keep_column = Some values →
       h' !! df = Some {| index := index d;
                          columns := [(keep_column, values)] |}).
Proof.
  intros H.
  destruct (drop_all_except_spec h df d keep_column H)
    as (h' & Hrun & Hdf & Hr & _ & Hframe).
  assert (df < length h)%nat as Hlt by (by eapply lookup_lt_Some).
  exists (S (length h)), h'. repeat split; try done.
  - apply lookup_ge_None. lia.
  - lia.
  - intros values Hnd Hc. by rewrite <- (kept_single _ _ _ Hnd Hc).
Qed.

Lemma drop_all_except_fills_only_the_copy_witness :
  ∃ r h',
    drop_all_except 0 "Close" [sample_bars] = Ok (r, h') ∧
    h' !! 0%nat = Some {| index := index sample_bars;
                          columns := [("Close", [num 1 1; SNum nan; num 3 1])] |} ∧
    r ≠ 0%nat.
Proof.
  destruct (drop_all_except_fills_only_the_copy [sample_bars] 0 sample_bars
              "Close" eq_refl)
    as (r & h' & Hrun & _ & _ & Hne & _ & _ & Hone).
  exists r, h'. split; [exact Hrun|]. split; [|exact Hne].
  apply Hone; [exact NoDup_sample_bars | reflexivity].
Defined.

(** C9. Reducing the table that [drop_all_except] returned, with the same
    [keep_column], returns a table equal to it. *)
Theorem drop_all_except_idempotent h df d keep_column :
  h !! df = Some d →
  ∃ r1 h1 d1 r2 h2,
    drop_all_except df keep_column h = Ok (r1, h1) ∧
    h1 !! r1 = Some d1 ∧
    drop_all_except r1 keep_column h1 = Ok (r2, h2) ∧
    h2 !! r2 = Some d1.
Proof.
  intros H.
  destruct (drop_all_except_spec h df d keep_column H)
    as (h1 & Hrun1 & _ & Hr1 & _).
  destruct (drop_all_except_spec h1 _ _ keep_column Hr1)
    as (h2 & Hrun2 & _ & Hr2 & _).
  rewrite kept_filled, filled_idempotent in Hr2.
  by exists (S (length h)), h1, (filled (kept d keep_column)), (S (length h1)), h2.
Qed.

Lemma drop_all_except_idempotent_witness :
  ∃ r1 h1 d1 r2 h2,
    drop_all_except 0 "Close" [sample_bars] = Ok (r1, h1) ∧
    h1 !! r1 = Some d1 ∧
    drop_all_except r1 "Close" h1 = Ok (r2, h2) ∧
    h2 !! r2 = Some d1.
Proof.
  apply (drop_all_except_idempotent [sample_bars] 0 sample_bars "Close").
  reflexivity.
Defined.

(** * The vendor adapter *)

Lemma update_spec df f (h : heap) d d' :
  h !! df = Some d → f d = Ok d' →
  ∃ h', update df f h = Ok (tt, h') ∧ h' !! df = Some d' ∧
        length h' = length h.
Proof.
  intros H Hf. eexists. split; [by eapply update_run|]. split.
  - apply list_lookup_insert_eq. by eapply lookup_lt_Some.
  - apply length_insert.
Qed.

Lemma get_yfinance_data_run history symbol start end_ timeframe drop
    (h : heap) d :
  history symbol start end_ timeframe = Ok d →
  ∃ r h',
    get_yfinance_data history symbol start end_ timeframe drop h = Ok (r, h') ∧
    h' !! r = Some (frame_rename "Close" "Price"
                      (if drop then kept d "Close" else d)).
Proof.
  intros H. unfold get_yfinance_data.
  erewrite bind_ok; cycle 1.
  { erewrite bind_ok; [reflexivity|]. unfold lift. by rewrite H. }
  pose proof (alloc_lookup h d) as Hd.
  destruct drop.
  - destruct (drop_all_except_spec _ _ _ "Close" Hd) as (h1 & Hrun & H1 & _).
    erewrite bind_ok; [|by erewrite bind_ok].
    unfold df_rename. erewrite bind_ok; [|by apply derive_run].
    eexists _, _. split; [reflexivity|]. apply alloc_lookup.
  - erewrite bind_ok; [|reflexivity].
    unfold df_rename. erewrite bind_ok; [|by apply derive_run].
    eexists _, _. split; [reflexivity|]. apply alloc_lookup.
Qed.

(** C5. When the source answers with a table without rows,
    [get_yfinance_data] raises nothing and returns a table without rows
    (never an absent value: its result is a reference to a table); with the
    reduce flag set and a [Close] column in the answer, that table is the
    empty [Price] column. *)
Theorem get_yfinance_data_no_data history symbol start end_ timeframe drop
    (h : heap) d :
  history symbol start end_ timeframe = Ok d →
  zero_rows d →
  ∃ r h' d',
    get_yfinance_data history symbol start end_ timeframe drop h = Ok (r, h') ∧
    h' !! r = Some d' ∧
    zero_rows d' ∧
    (drop = true → NoDup (labels d) → is_Some (column d "Close") →
     columns d' = [("Price", [])]).
Proof.
  intros H [Hi Hc].
  destruct (get_yfinance_data_run _ _ _ _ _ drop h _ H) as (r & h' & Hrun & Hr).
  exists r, h', (frame_rename "Close" "Price" (if drop then kept d "Close" else d)).
  split; [done|]. split; [done|]. split.
  - split; [by destruct drop|]. simpl.
    apply Forall_fmap. destruct drop; simpl.
    + apply Forall_forall. intros [l v] Hin.
      apply list_elem_of_filter in Hin as [_ Hin].
      exact (proj1 (Forall_forall _ _) Hc _ Hin).
    + eapply Forall_impl; [done|]. by intros [].
  - intros -> Hnd [values Hcol].
    assert (values = []) as ->.
    { unfold column in Hcol.
      destruct (list_find _ _) as [[i [l v]]|] eqn:E; [|done].
      injection Hcol as <-.
      apply list_find_Some in E as (Hi' & _ & _).
      apply list_elem_of_lookup_2 in Hi'.
      exact (proj1 (Forall_forall _ _) Hc _ Hi'). }
    simpl. by rewrite (filter_label_unique _ _ _ Hnd Hcol).
Qed.

Lemma get_yfinance_data_no_data_witness :
  ∃ r h' d',
    get_yfinance_data empty_history "AAPL" None None None true [] = Ok (r, h') ∧
    h' !! r = Some d' ∧
    zero_rows d' ∧
    columns d' = [("Price", [])].
Proof.
  destruct (get_yfinance_data_no_data empty_history "AAPL" None None None true
              [] empty_bars)
    as (r & h' & d' & Hrun & Hr & Hzero & Hprice).
  - reflexivity.
  - split; [reflexivity | repeat constructor].
  - exists r, h', d'. split; [exact Hrun|]. split; [exact Hr|].
    split; [exact Hzero|]. apply Hprice.
    + reflexivity.
    + apply (bool_decide_unpack _). vm_compute. exact I.
    + eexists. reflexivity.
Defined.

(** * The platform adapter *)

Lemma timeframes_unknown mt5 timeframe :
  timeframe ∉ timeframe_codes → timeframes mt5 !! timeframe = None.
Proof. intros H. by apply not_elem_of_list_to_map_1. Qed.

(** C7. [get_mt5_data] returns [None], raises nothing and leaves the store as
    it was when [authorized] is false, whatever the other arguments; when the
    timeframe code is none of the twenty-one codes; and when neither the two
    dates nor the two positions are both given. *)
Theorem get_mt5_data_guards to_datetime mt5 authorized symbol timeframe
    start_date end_date start_pos end_pos drop (h : heap) :
  authorized = false
  ∨ timeframe ∉ timeframe_codes
  ∨ ((start_date = None ∨ end_date = None)
     ∧ (start_pos = None ∨ end_pos = None)) →
  get_mt5_data to_datetime mt5 authorized symbol timeframe
    start_date end_date start_pos end_pos drop h
  = Ok (None, h).
Proof.
  intros Hguard. unfold get_mt5_data.
  destruct authorized; [|done]. cbn [negb].
  destruct Hguard as [?|[Hcode|[Hdate Hpos]]]; [done| |].
  - by rewrite timeframes_unknown.
  - destruct (timeframes mt5 !! timeframe) as [bar_time|]; [|done].
    destruct start_date, end_date, start_pos, end_pos; try done;
      by destruct Hdate, Hpos.
Qed.

Lemma get_mt5_data_guards_witness :
  get_mt5_data sample_to_datetime sample_mt5 false "EURUSD" "H1"
    (Some 0%Z) (Some 86400%Z) None None true [] = Ok (None, [])
  ∧ get_mt5_data sample_to_datetime sample_mt5 true "EURUSD" "H5"
      (Some 0%Z) (Some 86400%Z) None None true [] = Ok (None, [])
  ∧ get_mt5_data sample_to_datetime sample_mt5 true "EURUSD" "H1"
      (Some 0%Z) None None (Some 10%Z) true [] = Ok (None, []).
Proof.
  split; [|split]; apply get_mt5_data_guards.
  - left. reflexivity.
  - right. left. vm_compute. intros H.
    repeat (apply elem_of_cons in H as [H|H]; [discriminate H|]).
    by apply elem_of_nil in H.
  - right. right. split; [right | left]; reflexivity.
Defined.

(** C2 (the code departs from the claim). On the closes [1, NaN, 3] the
    returned column is [1, 1, 3]: the interior gap took the earlier value 1,
    not the next later value 3, because the forward pass runs first. *)
Example drop_all_except_fills_forward_first :
  ∃ h',
    drop_all_except 0 "Close" [sample_bars] = Ok (2%nat, h') ∧
    h' !! 2%nat = Some {| index := index sample_bars;
                          columns := [("Close", [num 1 1; num 1 1; num 3 1])] |}.
Proof. eexists. split; vm_compute; reflexivity. Qed.

(** C1 (the code departs from the claim). With the reduce flag set and a
    valid price in the input, the vendor adapter and the platform adapter
    return a price column that still holds the missing entry: both call
    [drop_all_except] for its effect on their table and drop the filled table
    it returns. *)
Example adapters_keep_gap :
  (∃ r h',
     get_yfinance_data sample_history "AAPL" None None None true []
     = Ok (r, h') ∧
     h' !! r = Some {| index := index sample_bars;
                       columns := [("Price", [num 1 1; SNum nan; num 3 1])] |})
  ∧ (∃ r h',
       get_mt5_data sample_to_datetime sample_mt5 true "EURUSD" "M1"
         None None (Some 0%Z) (Some 3%Z) true []
       = Ok (Some r, h') ∧
       h' !! r = Some {| index := [STime 0; STime 60; STime 120];
                         columns := [("Price", [num 1 1; SNum nan; num 3 1])] |}).
Proof. split; eexists _, _; split; vm_compute; reflexivity. Qed.

(** The file adapter keeps the table [drop_all_except] returns, and its
    price column is filled. *)
Example get_csv_data_fills_gap :
  ∃ r h',
    get_csv_data (sample_read_csv sample_daily_file) sample_to_datetime
      "bars.csv" None true true []
    = Ok (r, h') ∧
    h' !! r = Some {| index := [STime 20240102; STime 20240103; STime 20240104];
                      columns := [("Price", [num 1 1; num 1 1; num 3 1])] |}.
Proof. eexists _, _. split; vm_compute; reflexivity. Qed.

(** * The file adapter *)

Lemma mapM_result_lookup {A B : Type} (f : A → result B) (l : list A) k :
  mapM f l = Ok k →
  ∀ i y, k !! i = Some y → ∃ x, l !! i = Some x ∧ f x = Ok y.
Proof.
  revert k. induction l as [|x l IH]; intros k; simpl.
  - intros [= <-] i y Hi. done.
  - unfold mbind, result_bind at 1. destruct (f x) as [y0|] eqn:Hx; [|done].
    unfold mbind, result_bind at 1.
    destruct (mapM f l) as [k0|] eqn:Hl; [|done].
    intros [= <-] [|i] y Hi; simpl in *.
    + injection Hi as <-. eauto.
    + by eapply IH.
Qed.

Lemma read_csv_run (read_csv : string → option string → result DataFrame)
    file_path delim (h : heap) d :
  read_csv file_path delim = Ok d →
  (d0 ← lift (read_csv file_path delim); alloc d0) h
  = Ok (length h, h ++ [d]).
Proof. intros H. erewrite bind_ok; [reflexivity|]. unfold lift. by rewrite H. Qed.

Lemma get_csv_data_mismatch read_csv to_datetime file_path delim
    (dailyBars drop : bool) (h : heap) d :
  read_csv file_path delim = Ok d →
  length (columns d) ≠ (if dailyBars then 8 else 9)%nat →
  get_csv_data read_csv to_datetime file_path delim dailyBars drop h
  = Raise (ValueError "Length mismatch").
Proof.
  intros H Hlen. unfold get_csv_data.
  erewrite bind_ok; [|by apply read_csv_run].
  apply bind_raise. destruct dailyBars; apply bind_raise;
    (eapply update_raise; [apply alloc_lookup|]);
    unfold frame_set_columns; by rewrite decide_False by (simpl; lia).
Qed.

Lemma bind_assoc {A B C : Type} (m : py A) (f : A → py B) (g : B → py C)
    (h : heap) :
  ((m ≫= f) ≫= g) h = (m ≫= λ a, f a ≫= g) h.
Proof. rewrite !bind_run. by destruct (m h) as [[a h']|]. Qed.

(** One in-place step on the frame behind [df], with what is known of the
    store carried along: [H] says which frame [df] holds before the step and
    is replaced by what it holds after it. *)
Ltac step_update H f :=
  lazymatch type of H with
  | ?h !! ?df = Some ?d =>
      let r := eval vm_compute in (f d) in
      lazymatch r with
      | Ok ?d' =>
          let h' := fresh "h" in
          let Hrun := fresh "Hrun" in
          let H' := fresh "H" in
          destruct (update_spec df f h d d' H ltac:(vm_compute; reflexivity))
            as (h' & Hrun & H' & _);
          rewrite ?bind_assoc;
          erewrite bind_ok; [|exact Hrun]; clear Hrun H; rename H' into H
      end
  end.

Ltac step_inspect H :=
  rewrite ?bind_assoc;
  erewrite bind_ok; [|eapply inspect_run; [exact H | vm_compute; reflexivity]].

Lemma get_csv_data_daily read_csv to_datetime file_path delim (h : heap)
    idx l0 v0 l1 v1 l2 v2 l3 v3 l4 v4 l5 v5 l6 v6 l7 v7 ts :
  read_csv file_path delim
  = Ok {| index := idx;
          columns := [(l0, v0); (l1, v1); (l2, v2); (l3, v3); (l4, v4);
                      (l5, v5); (l6, v6); (l7, v7)] |} →
  mapM (to_datetime None) v0 = Ok ts →
  ∃ r h',
    get_csv_data read_csv to_datetime file_path delim true true h = Ok (r, h') ∧
    h' !! r = Some {| index := ts; columns := [("Price", fill v4)] |}.
Proof.
  intros Hread Hts. unfold get_csv_data.
  erewrite bind_ok; [|by apply read_csv_run].
  match goal with
  | |- context [h ++ [?d]] => pose proof (alloc_lookup h d) as H
  end.
  unfold df_set_columns, df_getitem, df_setitem, df_set_index_inplace.
  rewrite !bind_assoc.
  step_update H (frame_set_columns daily_schema).
  step_inspect H.
  rewrite ?bind_assoc.
  erewrite bind_ok; [|unfold lift, pd_to_datetime; by rewrite Hts].
  step_update H (frame_setitem "Datetime" ts).
  step_update H (frame_set_index "Datetime").
  destruct (drop_all_except_spec _ _ _ "Price" H) as (h' & Hrun & _ & Hr & _).
  erewrite bind_ok; [|exact Hrun].
  eexists _, _. split; [reflexivity|]. by rewrite Hr.
Qed.

Lemma get_csv_data_intraday read_csv to_datetime file_path delim (h : heap)
    idx l0 v0 l1 v1 l2 v2 l3 v3 l4 v4 l5 v5 l6 v6 l7 v7 l8 v8 text ts :
  read_csv file_path delim
  = Ok {| index := idx;
          columns := [(l0, v0); (l1, v1); (l2, v2); (l3, v3); (l4, v4);
                      (l5, v5); (l6, v6); (l7, v7); (l8, v8)] |} →
  (date_ ← series_add_scalar v0 (SStr " "); series_add date_ v1) = Ok text →
  mapM (to_datetime None) text = Ok ts →
  ∃ r h',
    get_csv_data read_csv to_datetime file_path delim false true h = Ok (r, h') ∧
    h' !! r = Some {| index := ts; columns := [("Price", fill v5)] |}.
Proof.
  intros Hread Htext Hts. unfold get_csv_data.
  erewrite bind_ok; [|by apply read_csv_run].
  match goal with
  | |- context [h ++ [?d]] => pose proof (alloc_lookup h d) as H
  end.
  unfold df_set_columns, df_getitem, df_setitem, df_set_index_inplace.
  step_update H (frame_set_columns intraday_schema).
  step_inspect H.
  step_inspect H.
  rewrite ?bind_assoc.
  erewrite bind_ok; [|unfold lift; by rewrite Htext].
  rewrite ?bind_assoc.
  erewrite bind_ok; [|unfold lift, pd_to_datetime; by rewrite Hts].
  step_update H (frame_setitem "Datetime" ts).
  step_update H (frame_set_index "Datetime").
  destruct (drop_all_except_spec _ _ _ "Price" H) as (h' & Hrun & _ & Hr & _).
  erewrite bind_ok; [|exact Hrun].
  eexists _, _. split; [reflexivity|]. by rewrite Hr.
Qed.

Lemma string_app_assoc (a b c : string) :
  ((a ++ b) ++ c = a ++ b ++ c)%string.
Proof.
  induction a as [|x a IH]; [done|].
  change (String x ((a ++ b) ++ c) = String x (a ++ b ++ c))%string.
  by rewrite IH.
Qed.

(** Adding a text to a column of texts appends it to every cell. *)
Lemma series_add_scalar_text (texts : list string) (sep : string) :
  series_add_scalar (SStr <$> texts) (SStr sep)
  = Ok (SStr <$> ((λ t, t ++ sep)%string <$> texts)).
Proof.
  unfold series_add_scalar. induction texts as [|t texts IH]; [done|].
  cbn [fmap list_fmap mapM]. rewrite IH. reflexivity.
Qed.

(** Adding two columns of texts joins them cell by cell. *)
Lemma series_add_text (xs ys : list string) :
  series_add (SStr <$> xs) (SStr <$> ys)
  = Ok (zip_with (λ x y, SStr (x ++ y)%string) xs ys).
Proof.
  unfold series_add. revert ys. induction xs as [|x xs IH]; intros [|y ys];
    try done.
  cbn [fmap list_fmap zip zip_with mapM]. fold (zip (SStr <$> xs) (SStr <$> ys)).
  unfold zip in IH. rewrite IH. reflexivity.
Qed.

(** What [df['Date'] + ' ' + df['Time']] is on two columns of texts. *)
Lemma intraday_text (dates times : list string) :
  (date_ ← series_add_scalar (SStr <$> dates) (SStr " ");
   series_add date_ (SStr <$> times))
  = Ok (zip_with (λ date time, SStr (date ++ " " ++ time)%string) dates times).
Proof.
  rewrite series_add_scalar_text. cbn [mbind result_bind].
  rewrite series_add_text. f_equal.
  revert times. induction dates as [|d dates IH]; intros [|t times]; try done.
  cbn [fmap list_fmap zip_with]. by rewrite string_app_assoc, <- IH.
Qed.

(** C6. When the table read from the file has a number of columns other
    than the width of the selected schema (8 daily, 9 intraday),
    [get_csv_data] raises the [ValueError] of the column assignment, whatever
    the reduce flag.  When it has that width and every timestamp parses,
    [get_csv_data] (reduce flag set, its default) returns a table whose one
    column is [Price], the filled price column of the file, and whose index
    holds, row for row in file order, the parsed timestamps: for a daily file
    the parse of the cell of the first column, for an intraday file whose
    first two columns hold text the parse of the date, a space and the time
    of the row. *)
Theorem get_csv_data_schema read_csv to_datetime file_path delim
    (h : heap) d :
  read_csv file_path delim = Ok d →
  (∀ dailyBars drop : bool,
     length (columns d) ≠ (if dailyBars then 8 else 9)%nat →
     get_csv_data read_csv to_datetime file_path delim dailyBars drop h
     = Raise (ValueError "Length mismatch"))
  ∧ (∀ dates ts,
       length (columns d) = 8%nat →
       (columns d).*2 !! 0%nat = Some dates →
       mapM (to_datetime None) dates = Ok ts →
       ∃ r h' prices,
         get_csv_data read_csv to_datetime file_path delim true true h
         = Ok (r, h') ∧
         (columns d).*2 !! 4%nat = Some prices ∧
         h' !! r = Some {| index := ts; columns := [("Price", fill prices)] |} ∧
         (∀ i t, ts !! i = Some t →
                 ∃ cell, dates !! i = Some cell ∧ to_datetime None cell = Ok t))
  ∧ (∀ dates times ts,
       length (columns d) = 9%nat →
       (columns d).*2 !! 0%nat = Some (SStr <$> dates) →
       (columns d).*2 !! 1%nat = Some (SStr <$> times) →
       mapM (to_datetime None)
         (zip_with (λ date time, SStr (date ++ " " ++ time)%string) dates times)
       = Ok ts →
       ∃ r h' prices,
         get_csv_data read_csv to_datetime file_path delim false true h
         = Ok (r, h') ∧
         (columns d).*2 !! 5%nat = Some prices ∧
         h' !! r = Some {| index := ts; columns := [("Price", fill prices)] |} ∧
         (∀ i t, ts !! i = Some t →
                 ∃ date time,
                   dates !! i = Some date ∧ times !! i = Some time ∧
                   to_datetime None (SStr (date ++ " " ++ time)%string) = Ok t)).
Proof.
  intros Hread. split; [|split].
  - intros dailyBars drop Hlen. by eapply get_csv_data_mismatch.
  - intros dates ts Hlen Hdates Hts. destruct d as [idx cols]. simpl in Hlen.
    do 9 (destruct cols as [|[? ?] cols]; try done).
    simpl in Hdates. injection Hdates as ->.
    edestruct get_csv_data_daily as (r & h' & Hrun & Hr); [done..|].
    exists r, h'. eexists.
    split; [exact Hrun|]. split; [reflexivity|]. split; [exact Hr|].
    by apply mapM_result_lookup.
  - intros dates times ts Hlen Hdates Htimes Hts.
    destruct d as [idx cols]. simpl in Hlen.
    do 10 (destruct cols as [|[? ?] cols]; try done).
    simpl in Hdates, Htimes. injection Hdates as ->. injection Htimes as ->.
    edestruct get_csv_data_intraday as (r & h' & Hrun & Hr);
      [done | apply intraday_text | done |].
    exists r, h'. eexists.
    split; [exact Hrun|]. split; [reflexivity|]. split; [exact Hr|].
    intros i t Hi.
    destruct (mapM_result_lookup _ _ _ Hts i t Hi) as (cell & Hcell & Hparse).
    apply lookup_zip_with_Some in Hcell as (date & time & -> & Hd & Ht).
    by exists date, time.
Qed.

Lemma get_csv_data_schema_witness :
  get_csv_data (sample_read_csv sample_short_file) sample_to_datetime
    "bars.csv" None true true []
  = Raise (ValueError "Length mismatch")
  ∧ (∃ r h' prices,
       get_csv_data (sample_read_csv sample_daily_file) sample_to_datetime
         "bars.csv" None true true []
       = Ok (r, h') ∧
       h' !! r = Some {| index := [STime 20240102; STime 20240103;
                                   STime 20240104];
                         columns := [("Price", fill prices)] |})
  ∧ (∃ r h' prices,
       get_csv_data (sample_read_csv sample_intraday_file) sample_to_datetime
         "ticks.csv" None false true []
       = Ok (r, h') ∧
       h' !! r = Some {| index := [STime 202401020930; STime 202401020945];
                         columns := [("Price", fill prices)] |}).
Proof.
  split; [|split].
  - destruct (get_csv_data_schema (sample_read_csv sample_short_file)
                sample_to_datetime "bars.csv" None [] sample_short_file
                eq_refl) as (Hshort & _ & _).
    apply Hshort. vm_compute. discriminate.
  - destruct (get_csv_data_schema (sample_read_csv sample_daily_file)
                sample_to_datetime "bars.csv" None [] sample_daily_file
                eq_refl) as (_ & Hdaily & _).
    destruct (Hdaily [SStr "20240102"; SStr "20240103"; SStr "20240104"]
                [STime 20240102; STime 20240103; STime 20240104])
      as (r & h' & prices & Hrun & _ & Hr & _); [reflexivity..|].
    by exists r, h', prices.
  - destruct (get_csv_data_schema (sample_read_csv sample_intraday_file)
                sample_to_datetime "ticks.csv" None [] sample_intraday_file
                eq_refl) as (_ & _ & Hintraday).
    destruct (Hintraday ["20240102"; "20240102"] ["0930"; "0945"]
                [STime 202401020930; STime 202401020945])
      as (r & h' & prices & Hrun & _ & Hr & _); [reflexivity..|].
    by exists r, h', prices.
Defined.

(** * The range mapper *)

Lemma SFltb_chain a b c :
  SFltb a b = true → SFltb b c = true → SFltb c a = false.
Proof.
  unfold SFltb.
  destruct a as [[]|[]| |[] ma ea], b as [[]|[]| |[] mb eb],
           c as [[]|[]| |[] mc ec]; simpl; try done;
    repeat match goal with
      | |- context [Z.compare ?x ?y] => destruct (Z.compare_spec x y); simpl
      | |- context [Pos.compare_cont _ ?x ?y] =>
          change (Pos.compare_cont Eq x y) with (Pos.compare x y)
      | |- context [Pos.compare ?x ?y] => destruct (Pos.compare_spec x y); simpl
      end; try done; try lia.
Qed.

Lemma ltb_chain (a b c : float) :
  (a <? b)%float = true → (b <? c)%float = true → (c <? a)%float = false.
Proof. rewrite !ltb_spec. apply SFltb_chain. Qed.

(** C8, as amended. For a source range with [lo < hi], [scale] returns
    [dlo] when [v < lo], [dhi] when [hi < v], and in every other case, the
    two boundaries [v = lo] and [v = hi] included, the proportional
    interpolation computed in binary64, provided [hi - lo] is not zero;
    [scale(0, (0, 99), (-1, 1))] is [-1.0] and [scale(50, (0, 100), (0, 1))]
    is [0.5]. *)
Theorem scale_clamps_outside (v lo hi dlo dhi : float) :
  (lo <? hi)%float = true →
  ((v <? lo)%float = true → scale v [lo; hi] [dlo; dhi] = Ok dlo)
  ∧ ((hi <? v)%float = true → scale v [lo; hi] [dlo; dhi] = Ok dhi)
  ∧ ((v <? lo)%float = false → (hi <? v)%float = false →
     (hi - lo =? 0)%float = false →
     scale v [lo; hi] [dlo; dhi]
     = Ok ((v - lo) / (hi - lo) * (dhi - dlo) + dlo)%float)
  ∧ scale (ratio 0 1) [ratio 0 1; ratio 99 1] [(- ratio 1 1)%float; ratio 1 1]
    = Ok (- ratio 1 1)%float
  ∧ scale (ratio 50 1) [ratio 0 1; ratio 100 1] [ratio 0 1; ratio 1 1]
    = Ok (ratio 1 2).
Proof.
  intros Hrange. unfold scale, getitem, truediv. simpl.
  repeat split.
  - by intros ->.
  - intros Hv. by rewrite (ltb_chain _ _ _ Hrange Hv), Hv.
  - by intros -> -> ->.
Qed.

Lemma scale_clamps_outside_witness :
  (ratio 0 1 <? ratio 2 1)%float = true
  ∧ scale (ratio 3 1) [ratio 0 1; ratio 2 1] [ratio 5 1; ratio 7 1]
    = Ok (ratio 7 1)
  ∧ scale (ratio 1 1) [ratio 0 1; ratio 2 1] [ratio 5 1; ratio 7 1]
    = Ok (ratio 6 1).
Proof.
  destruct (scale_clamps_outside (ratio 3 1) (ratio 0 1) (ratio 2 1)
              (ratio 5 1) (ratio 7 1) eq_refl) as (_ & Hhi & _).
  destruct (scale_clamps_outside (ratio 1 1) (ratio 0 1) (ratio 2 1)
              (ratio 5 1) (ratio 7 1) eq_refl) as (_ & _ & Hmid & _).
  split; [reflexivity|]. split.
  - apply Hhi. reflexivity.
  - rewrite Hmid by reflexivity. vm_compute. reflexivity.
Defined.

(** C8, as stated, fails on both boundaries, where the interpolation is
    computed: [scale(1.0, (0.0, 1.0), (-1.0, 0.1))] is [0.10000000000000009],
    not [0.1], and [scale(0.0, (0.0, 1.0), (-2**1023, 2**1023))] is not a
    number. *)
Lemma scale_boundary_not_clamped :
  ¬ (∀ v lo hi dlo dhi : float,
       (lo <? hi)%float = true → (hi <=? v)%float = true →
       scale v [lo; hi] [dlo; dhi] = Ok dhi)
  ∧ ¬ (∀ v lo hi dlo dhi : float,
         (lo <? hi)%float = true → (v <=? lo)%float = true →
         scale v [lo; hi] [dlo; dhi] = Ok dlo).
Proof.
  split; intros H.
  - specialize (H (ratio 1 1) (ratio 0 1) (ratio 1 1) (- ratio 1 1)%float
                  (ratio 1 10) eq_refl eq_refl).
    apply (f_equal (λ r, match r with
                         | Ok x => (x =? ratio 1 10)%float
                         | Raise _ => true
                         end)) in H.
    vm_compute in H. discriminate H.
  - specialize (H (ratio 0 1) (ratio 0 1) (ratio 1 1)
                  (- Z.ldexp (ratio 1 1) 1023)%float
                  (Z.ldexp (ratio 1 1) 1023) eq_refl eq_refl).
    apply (f_equal (λ r, match r with
                         | Ok x => is_nan x
                         | Raise _ => false
                         end)) in H.
    vm_compute in H. discriminate H.
Qed.

(** * The display formatter *)

Lemma get_integer_digits d rest :
  match rest with
  | EmptyString => True
  | String c _ => digit_of_ascii c = None
  end →
  get_integer (NilEmpty.string_of_uint d ++ rest)%string = (d, rest).
Proof.
  intros Hrest. induction d as [|d IH|d IH|d IH|d IH|d IH|d IH|d IH|d IH|d IH|d IH];
    simpl; try (by rewrite IH).
  destruct rest as [|c rest]; simpl; [done|]. by rewrite Hrest.
Qed.

Lemma parse_format_spec_digits d :
  d ≠ Nil → (Z.of_N (N.of_uint d) ≤ INT_MAX)%Z →
  parse_format_spec (String "." (NilEmpty.string_of_uint d ++ "f"))
  = Ok (N.of_uint d, "f"%char).
Proof.
  intros Hnil Hmax. unfold parse_format_spec.
  rewrite get_integer_digits by done.
  assert (INT_MAX < PY_SSIZE_T_MAX)%Z by done.
  destruct (PY_SSIZE_T_MAX <? Z.of_N (N.of_uint d))%Z eqn:Hfit; [lia|].
  destruct (INT_MAX <? Z.of_N (N.of_uint d))%Z eqn:Hcmp; [lia|].
  by destruct d.
Qed.

Lemma parse_format_spec_precision (decimals : Z) :
  (0 ≤ decimals ≤ INT_MAX)%Z →
  parse_format_spec ("." ++ str decimals ++ "f")
  = Ok (Z.to_N decimals, "f"%char).
Proof.
  intros [Hlo Hhi]. unfold str.
  destruct decimals as [|p|p]; [reflexivity| |lia].
  cbn [Z.to_int NilZero.string_of_int].
  pose proof (DecimalPos.Unsigned.to_uint_nonnil p) as Hnil.
  pose proof (DecimalPos.Unsigned.of_to p) as Hof.
  assert (NilZero.string_of_uint (Pos.to_uint p)
          = NilEmpty.string_of_uint (Pos.to_uint p)) as ->
    by (unfold NilZero.string_of_uint; by destruct (Pos.to_uint p)).
  change ("." ++ ?s)%string with (String "."%char s).
  rewrite parse_format_spec_digits; unfold N.of_uint; rewrite ?Hof; done.
Qed.

(** C10, as amended. [to_percent] and [to_percent_num] return a string for
    every float, and [to_float] for every float and every number of decimals
    from 0 to [INT_MAX]; on not-a-number the three return ["-"], whatever the
    number of decimals; [to_percent(0.1234)] is ["12.34%"] and
    [to_percent_num(0.1234)] is ["12.34"]. *)
Theorem formatting_returns_text :
  (∀ number, ∃ s, to_percent number = Ok s)
  ∧ (∀ number, ∃ s, to_percent_num number = Ok s)
  ∧ (∀ number decimals,
       (0 ≤ decimals ≤ INT_MAX)%Z → ∃ s, to_float number decimals = Ok s)
  ∧ (∀ number decimals,
       is_nan number = true →
       to_percent number = Ok "-"
       ∧ to_percent_num number = Ok "-"
       ∧ to_float number decimals = Ok "-")
  ∧ to_percent (ratio 1234 10000) = Ok "12.34%"
  ∧ to_percent_num (ratio 1234 10000) = Ok "12.34".
Proof.
  split; [|split; [|split; [|split; [|split]]]].
  - intros x. unfold to_percent. destruct (is_nan x); eexists; reflexivity.
  - intros x. unfold to_percent_num. destruct (is_nan x); eexists; reflexivity.
  - intros x decimals Hd. unfold to_float, format.
    destruct (is_nan x); [by eexists|].
    rewrite parse_format_spec_precision by done. by eexists.
  - intros x decimals Hx. unfold to_percent, to_percent_num, to_float.
    by rewrite Hx.
  - vm_compute. reflexivity.
  - vm_compute. reflexivity.
Qed.

Lemma formatting_returns_text_witness :
  (∃ s, to_float (ratio 5 2) 3 = Ok s)
  ∧ to_float nan (-1) = Ok "-".
Proof.
  destruct formatting_returns_text as (_ & _ & Hfloat & Hnan & _).
  split.
  - apply Hfloat. vm_compute. split; discriminate.
  - apply (Hnan nan (-1)%Z). reflexivity.
Defined.

(** C10, as stated, fails: [to_float(1.5, -1)] builds the format
    specification [".-1f"], which [format] refuses with a [ValueError]. *)
Lemma to_float_negative_decimals_raises :
  ¬ (∀ (number : float) (decimals : Z), ∃ s, to_float number decimals = Ok s).
Proof.
  intros H. destruct (H (ratio 3 2) (-1)%Z) as [s Hs].
  vm_compute in Hs. discriminate Hs.
Qed.

(** * The frequency catalog *)

Lemma ascii_upper_lower c : ascii_upper (ascii_lower c) = ascii_upper c.
Proof. by destruct c as [[] [] [] [] [] [] [] []]. Qed.

Lemma ascii_upper_upper c : ascii_upper (ascii_upper c) = ascii_upper c.
Proof. by destruct c as [[] [] [] [] [] [] [] []]. Qed.

Lemma upper_lower s : upper (lower s) = upper s.
Proof. induction s as [|c s IH]; simpl; [done|]. by rewrite ascii_upper_lower, IH. Qed.

Lemma upper_upper s : upper (upper s) = upper s.
Proof. induction s as [|c s IH]; simpl; [done|]. by rewrite ascii_upper_upper, IH. Qed.

Lemma NoDup_period_codes : NoDup period_table.*1.
Proof. apply (bool_decide_unpack _). vm_compute. exact I. Qed.

(** X1. [get_freq] does not see letter case: for a code made of ASCII
    characters, the lower-cased and the upper-cased code get the answer of the
    code itself. *)
Theorem get_freq_ignores_case period :
  ascii_text period →
  get_freq (lower period) = get_freq period
  ∧ get_freq (upper period) = get_freq period.
Proof.
  intros _. unfold get_freq. by rewrite upper_lower, upper_upper.
Qed.

Lemma get_freq_ignores_case_witness :
  ascii_text "bqs"
  ∧ get_freq (lower "bQs") = get_freq "bQs"
  ∧ get_freq (upper "bQs") = get_freq "bQs".
Proof.
  split; [vm_compute; repeat split; lia|].
  apply get_freq_ignores_case. vm_compute. repeat split; lia.
Defined.

(** X2. For a code made of ASCII characters, [get_freq] answers a description
    exactly when the upper-cased code and that description are a row of the
    table, and [None] exactly when the upper-cased code is none of its twenty-
    five keys. *)
Theorem get_freq_table period :
  ascii_text period →
  (∀ description,
     get_freq period = Some description
     ↔ (upper period, description) ∈ period_table)
  ∧ (get_freq period = None ↔ upper period ∉ period_table.*1).
Proof.
  intros _. unfold get_freq. split.
  - intros description. symmetry.
    apply elem_of_list_to_map, NoDup_period_codes.
  - symmetry. apply not_elem_of_list_to_map.
Qed.

Lemma get_freq_table_witness :
  ascii_text "we" ∧ get_freq "we" = Some "weekly" ∧ get_freq "zz" = None.
Proof.
  split; [vm_compute; repeat split; lia|]. split.
  - apply (get_freq_table "we"); [vm_compute; repeat split; lia|].
    apply (bool_decide_unpack _). vm_compute. exact I.
  - apply (get_freq_table "zz"); [vm_compute; repeat split; lia|].
    apply (bool_decide_unpack _). vm_compute. exact I.
Defined.

(** * More on the two fills *)

Lemma bfill_subset (l : list scalar) x : x ∈ bfill l → x ∈ l.
Proof.
  induction l as [|c l IH]; [done|]. simpl.
  rewrite !elem_of_cons. intros [->|Hx]; [|by right; apply IH].
  destruct (isna c); [|by left].
  destruct (bfill l) as [|v r] eqn:E; [by left|].
  right. apply IH. by left.
Qed.

Lemma ffill_from_subset val (l : list scalar) x :
  x ∈ ffill_from val l → x ∈ l ∨ x = val.
Proof.
  revert val. induction l as [|c l IH]; intros val; [by intros ?%elem_of_nil|].
  simpl. destruct (isna c) eqn:Hc; rewrite !elem_of_cons.
  - intros [->|Hx]; [by right|].
    destruct (IH _ Hx) as [?|?]; [by left; right | by right].
  - intros [->|Hx]; [by left; left|].
    destruct (IH _ Hx) as [?| ->]; left; [by right | by left].
Qed.

Lemma fill_subset (values : list scalar) x :
  x ∈ fill values → x ∈ values.
Proof.
  intros Hx%bfill_subset. unfold ffill in Hx.
  destruct values as [|c values]; [done|].
  apply ffill_from_subset in Hx as [?| ->]; [done|]. by left.
Qed.

Lemma ffill_from_gap v (gaps rest : list scalar) i :
  Forall missing gaps → (i < length gaps)%nat →
  ffill_from v (gaps ++ rest) !! i = Some v.
Proof.
  intros Hg. revert i. induction Hg as [|g gaps Hgm _ IH]; intros i Hi;
    simpl in *; [lia|].
  rewrite Hgm. destruct i as [|i]; [done|]. simpl. apply IH. lia.
Qed.

Lemma ffill_from_after_valid val (pre : list scalar) v gaps rest i :
  valid v → Forall missing gaps → (i < length gaps)%nat →
  ffill_from val (pre ++ v :: gaps ++ rest) !! (length pre + S i)%nat = Some v.
Proof.
  intros Hv Hg Hi. revert val. induction pre as [|c pre IH]; intros val; simpl.
  - rewrite Hv. simpl. by apply ffill_from_gap.
  - destruct (isna c); simpl; apply IH.
Qed.

Lemma fill_after_valid (pre : list scalar) v gaps rest i :
  valid v → Forall missing gaps → (i < length gaps)%nat →
  fill (pre ++ v :: gaps ++ rest) !! (length pre + S i)%nat = Some v.
Proof.
  intros Hv Hg Hi. apply bfill_lookup_valid; [|done].
  unfold ffill. destruct (pre ++ v :: gaps ++ rest) as [|c l] eqn:E.
  - by destruct pre.
  - rewrite <- E. by apply ffill_from_after_valid.
Qed.

Lemma bfill_leading (gaps : list scalar) v rest i :
  Forall missing gaps → valid v → (i ≤ length gaps)%nat →
  bfill (gaps ++ v :: rest) !! i = Some v.
Proof.
  intros Hg Hv. revert i. induction Hg as [|g gaps Hgm _ IH]; intros i Hi.
  - simpl in *. assert (i = 0%nat) as -> by lia. simpl. by rewrite Hv.
  - destruct i as [|i]; [|simpl in *; apply IH; lia].
    pose proof (IH 0%nat ltac:(lia)) as H0.
    cbn [app bfill]. rewrite Hgm.
    destruct (bfill (gaps ++ v :: rest)) as [|v' r]; [done|].
    simpl in H0. by injection H0 as ->.
Qed.

Lemma ffill_from_leading val (gaps : list scalar) v rest :
  Forall missing gaps → valid v →
  ffill_from val (gaps ++ v :: rest)
  = replicate (length gaps) val ++ v :: ffill_from v rest.
Proof.
  intros Hg Hv. induction Hg as [|g gaps Hgm _ IH]; simpl.
  - by rewrite Hv.
  - by rewrite Hgm, IH.
Qed.

Lemma fill_leading (gaps : list scalar) v rest i :
  Forall missing gaps → valid v → (i < length gaps)%nat →
  fill (gaps ++ v :: rest) !! i = Some v.
Proof.
  intros Hg Hv Hi. unfold fill, ffill.
  destruct gaps as [|g gaps]; [simpl in Hi; lia|].
  pose proof Hg as [Hgm _]%Forall_cons.
  change ((g :: gaps) ++ v :: rest) with (g :: (gaps ++ v :: rest)).
  cbv beta iota.
  change (g :: (gaps ++ v :: rest)) with ((g :: gaps) ++ v :: rest).
  rewrite ffill_from_leading by done.
  apply bfill_leading; [by apply Forall_replicate | done |].
  rewrite length_replicate. lia.
Qed.

(** * More on [drop_all_except] and the vendor adapter *)

Lemma drop_all_except_column (h : heap) df d keep_column values :
  h !! df = Some d →
  NoDup (labels d) →
  column d keep_column = Some values →
  ∃ r h',
    drop_all_except df keep_column h = Ok (r, h') ∧
    h' !! r = Some {| index := index d;
                      columns := [(keep_column, fill values)] |}.
Proof.
  intros H Hnd Hc.
  destruct (drop_all_except_spec h df d keep_column H) as (h' & Hrun & _ & Hr & _).
  rewrite (kept_single _ _ _ Hnd Hc) in Hr. by exists (S (length h)), h'.
Qed.

(** X3. [drop_all_except] invents no value: every entry of the column it
    returns is an entry of the caller's column. *)
Theorem drop_all_except_invents_nothing (h : heap) df d keep_column values :
  h !! df = Some d →
  NoDup (labels d) →
  column d keep_column = Some values →
  ∃ r h' values',
    drop_all_except df keep_column h = Ok (r, h') ∧
    h' !! r = Some {| index := index d;
                      columns := [(keep_column, values')] |} ∧
    ∀ x, x ∈ values' → x ∈ values.
Proof.
  intros H Hnd Hc.
  destruct (drop_all_except_column h df d keep_column values H Hnd Hc)
    as (r & h' & Hrun & Hr).
  exists r, h', (fill values). split; [done|]. split; [done|].
  apply fill_subset.
Qed.

Lemma drop_all_except_invents_nothing_witness :
  ∃ r h' values',
    drop_all_except 0 "Close" [sample_bars] = Ok (r, h') ∧
    h' !! r = Some {| index := index sample_bars;
                      columns := [("Close", values')] |} ∧
    ∀ x, x ∈ values' → x ∈ [num 1 1; SNum nan; num 3 1].
Proof.
  apply (drop_all_except_invents_nothing [sample_bars] 0 sample_bars "Close").
  - reflexivity.
  - exact NoDup_sample_bars.
  - reflexivity.
Defined.

(** X4. In [drop_all_except] the forward pass comes first: a gap that follows
    a valid entry is filled with that entry, the nearest earlier valid value,
    whatever comes later in the column. *)
Theorem drop_all_except_fills_from_before (h : heap) df d keep_column
    pre v gaps rest :
  h !! df = Some d →
  NoDup (labels d) →
  column d keep_column = Some (pre ++ v :: gaps ++ rest) →
  valid v →
  Forall missing gaps →
  ∃ r h' values',
    drop_all_except df keep_column h = Ok (r, h') ∧
    h' !! r = Some {| index := index d;
                      columns := [(keep_column, values')] |} ∧
    ∀ i, (i < length gaps)%nat → values' !! (length pre + S i)%nat = Some v.
Proof.
  intros H Hnd Hc Hv Hg.
  destruct (drop_all_except_column h df d keep_column _ H Hnd Hc)
    as (r & h' & Hrun & Hr).
  eexists r, h', _. split; [done|]. split; [done|].
  intros i Hi. by apply fill_after_valid.
Qed.

Lemma drop_all_except_fills_from_before_witness :
  ∃ r h' values',
    drop_all_except 0 "Close" [sample_bars] = Ok (r, h') ∧
    h' !! r = Some {| index := index sample_bars;
                      columns := [("Close", values')] |} ∧
    values' !! 1%nat = Some (num 1 1).
Proof.
  destruct (drop_all_except_fills_from_before [sample_bars] 0 sample_bars
              "Close" [] (num 1 1) [SNum nan] [num 3 1])
    as (r & h' & values' & Hrun & Hr & Hgap).
  - reflexivity.
  - exact NoDup_sample_bars.
  - reflexivity.
  - reflexivity.
  - repeat constructor.
  - exists r, h', values'. split; [done|]. split; [done|].
    apply (Hgap 0%nat). simpl. lia.
Defined.

(** X5. In [drop_all_except] only the gaps before the first valid entry are
    filled from later on: each of them takes the first valid value of the
    column. *)
Theorem drop_all_except_leading_gaps (h : heap) df d keep_column
    gaps v rest :
  h !! df = Some d →
  NoDup (labels d) →
  column d keep_column = Some (gaps ++ v :: rest) →
  Forall missing gaps →
  valid v →
  ∃ r h' values',
    drop_all_except df keep_column h = Ok (r, h') ∧
    h' !! r = Some {| index := index d;
                      columns := [(keep_column, values')] |} ∧
    ∀ i, (i < length gaps)%nat → values' !! i = Some v.
Proof.
  intros H Hnd Hc Hg Hv.
  destruct (drop_all_except_column h df d keep_column _ H Hnd Hc)
    as (r & h' & Hrun & Hr).
  eexists r, h', _. split; [done|]. split; [done|].
  intros i Hi. by apply fill_leading.
Qed.

Lemma drop_all_except_leading_gaps_witness :
  ∃ r h' values',
    drop_all_except 0 "Close" [sample_late_bars] = Ok (r, h') ∧
    h' !! r = Some {| index := index sample_late_bars;
                      columns := [("Close", values')] |} ∧
    values' !! 0%nat = Some (num 3 1).
Proof.
  destruct (drop_all_except_leading_gaps [sample_late_bars] 0 sample_late_bars
              "Close" [SNum nan; SNone] (num 3 1) [num 4 1])
    as (r & h' & values' & Hrun & Hr & Hgap).
  - reflexivity.
  - apply (bool_decide_unpack _). vm_compute. exact I.
  - reflexivity.
  - repeat constructor.
  - reflexivity.
  - exists r, h', values'. split; [done|]. split; [done|].
    apply (Hgap 0%nat). simpl. lia.
Defined.

(** X6. When [keep_column] is not a column of the table, [drop_all_except]
    raises nothing: it strips the caller's table of every column and returns a
    table without columns over the same index. *)
Theorem drop_all_except_absent_column (h : heap) df d keep_column :
  h !! df = Some d →
  keep_column ∉ labels d →
  ∃ r h',
    drop_all_except df keep_column h = Ok (r, h') ∧
    h' !! df = Some {| index := index d; columns := [] |} ∧
    h' !! r = Some {| index := index d; columns := [] |}.
Proof.
  intros H Habsent.
  destruct (drop_all_except_spec h df d keep_column H)
    as (h' & Hrun & Hdf & Hr & _).
  assert (kept d keep_column = {| index := index d; columns := [] |}) as E
    by (unfold kept; f_equal; by apply filter_label_absent).
  rewrite E in Hdf, Hr. by exists (S (length h)), h'.
Qed.

Lemma drop_all_except_absent_column_witness :
  ∃ r h',
    drop_all_except 0 "Adj Close" [sample_bars] = Ok (r, h') ∧
    h' !! 0%nat = Some {| index := index sample_bars; columns := [] |} ∧
    h' !! r = Some {| index := index sample_bars; columns := [] |}.
Proof.
  apply (drop_all_except_absent_column [sample_bars] 0 sample_bars "Adj Close").
  - reflexivity.
  - apply (bool_decide_unpack _). vm_compute. exact I.
Defined.

(** X7. With the reduce flag set, [get_yfinance_data] returns the source's
    index and its [Close] column under the name [Price], entry for entry as
    the source gave it, missing entries included. *)
Theorem get_yfinance_data_returns_close_as_is history symbol start end_
    timeframe (h : heap) d values :
  history symbol start end_ timeframe = Ok d →
  NoDup (labels d) →
  column d "Close" = Some values →
  ∃ r h',
    get_yfinance_data history symbol start end_ timeframe true h = Ok (r, h') ∧
    h' !! r = Some {| index := index d; columns := [("Price", values)] |}.
Proof.
  intros H Hnd Hc.
  destruct (get_yfinance_data_run _ _ _ _ _ true h _ H) as (r & h' & Hrun & Hr).
  rewrite (kept_single _ _ _ Hnd Hc) in Hr. by exists r, h'.
Qed.

Lemma get_yfinance_data_returns_close_as_is_witness :
  ∃ r h',
    get_yfinance_data sample_history "AAPL" None None None true [] = Ok (r, h') ∧
    h' !! r = Some {| index := index sample_bars;
                      columns := [("Price", [num 1 1; SNum nan; num 3 1])] |}.
Proof.
  apply (get_yfinance_data_returns_close_as_is sample_history "AAPL" None None
           None [] sample_bars).
  - reflexivity.
  - exact NoDup_sample_bars.
  - reflexivity.
Defined.

(** X8. Without the reduce flag, [get_yfinance_data] returns every column of
    the source in order, with the same cells and index; only the label [Close]
    becomes [Price]. *)
Theorem get_yfinance_data_keeps_other_columns history symbol start end_
    timeframe (h : heap) d :
  history symbol start end_ timeframe = Ok d →
  ∃ r h' d',
    get_yfinance_data history symbol start end_ timeframe false h
    = Ok (r, h') ∧
    h' !! r = Some d' ∧
    index d' = index d ∧
    labels d' = (λ l, if decide (l = "Close") then "Price" else l) <$> labels d ∧
    (columns d').*2 = (columns d).*2.
Proof.
  intros H.
  destruct (get_yfinance_data_run _ _ _ _ _ false h _ H) as (r & h' & Hrun & Hr).
  eexists r, h', _. split; [done|]. split; [done|]. split; [done|].
  unfold labels. simpl. rewrite <- !list_fmap_compose.
  split; apply list_fmap_ext; by intros _ [l v] _.
Qed.

Lemma get_yfinance_data_keeps_other_columns_witness :
  ∃ r h' d',
    get_yfinance_data sample_history "AAPL" None None None false []
    = Ok (r, h') ∧
    h' !! r = Some d' ∧
    labels d' = ["Open"; "Price"; "Volume"].
Proof.
  destruct (get_yfinance_data_keeps_other_columns sample_history "AAPL" None
              None None [] sample_bars eq_refl)
    as (r & h' & d' & Hrun & Hr & _ & Hl & _).
  by exists r, h', d'.
Defined.

(** X9. An error raised by the vendor request or by the file reader leaves
    [get_yfinance_data], respectively [get_csv_data], as that same error. *)
Theorem adapters_pass_source_errors_on history read_csv to_datetime
    symbol start end_ timeframe file_path delim
    (dailyBars drop : bool) (h : heap) e :
  (history symbol start end_ timeframe = Raise e →
   get_yfinance_data history symbol start end_ timeframe drop h = Raise e)
  ∧ (read_csv file_path delim = Raise e →
     get_csv_data read_csv to_datetime file_path delim dailyBars drop h
     = Raise e).
Proof.
  split; intros H.
  - unfold get_yfinance_data. apply bind_raise, bind_raise.
    unfold lift. by rewrite H.
  - unfold get_csv_data. apply bind_raise, bind_raise.
    unfold lift. by rewrite H.
Qed.

Lemma adapters_pass_source_errors_on_witness :
  get_yfinance_data failing_history "AAPL" None None None true []
  = Raise (ExternalError "no connection")
  ∧ get_csv_data failing_read_csv sample_to_datetime "bars.csv" None true true []
    = Raise (ExternalError "No such file or directory").
Proof.
  split.
  - apply (adapters_pass_source_errors_on failing_history failing_read_csv
             sample_to_datetime "AAPL" None None None "bars.csv" None true true
             []).
    reflexivity.
  - apply (adapters_pass_source_errors_on failing_history failing_read_csv
             sample_to_datetime "AAPL" None None None "bars.csv" None true true
             []).
    reflexivity.
Defined.

(** * More on the file adapter *)

Lemma get_csv_data_keep_daily read_csv to_datetime file_path delim (h : heap)
    idx l0 v0 l1 v1 l2 v2 l3 v3 l4 v4 l5 v5 l6 v6 l7 v7 ts :
  read_csv file_path delim
  = Ok {| index := idx;
          columns := [(l0, v0); (l1, v1); (l2, v2); (l3, v3); (l4, v4);
                      (l5, v5); (l6, v6); (l7, v7)] |} →
  mapM (to_datetime None) v0 = Ok ts →
  ∃ r h',
    get_csv_data read_csv to_datetime file_path delim true false h = Ok (r, h') ∧
    h' !! r = Some {| index := ts;
                      columns := zip daily_schema
                                   [v0; v1; v2; v3; v4; v5; v6; v7] |}.
Proof.
  intros Hread Hts. unfold get_csv_data.
  erewrite bind_ok; [|by apply read_csv_run].
  match goal with
  | |- context [h ++ [?d]] => pose proof (alloc_lookup h d) as H
  end.
  unfold df_set_columns, df_getitem, df_setitem, df_set_index_inplace.
  step_update H (frame_set_columns daily_schema).
  step_inspect H.
  rewrite ?bind_assoc.
  erewrite bind_ok; [|unfold lift, pd_to_datetime; by rewrite Hts].
  step_update H (frame_setitem "Datetime" ts).
  step_update H (frame_set_index "Datetime").
  eexists _, _. split; [reflexivity|]. exact H.
Qed.

Lemma get_csv_data_keep_intraday read_csv to_datetime file_path delim
    (h : heap) idx l0 v0 l1 v1 l2 v2 l3 v3 l4 v4 l5 v5 l6 v6 l7 v7 l8 v8
    text ts :
  read_csv file_path delim
  = Ok {| index := idx;
          columns := [(l0, v0); (l1, v1); (l2, v2); (l3, v3); (l4, v4);
                      (l5, v5); (l6, v6); (l7, v7); (l8, v8)] |} →
  (date_ ← series_add_scalar v0 (SStr " "); series_add date_ v1) = Ok text →
  mapM (to_datetime None) text = Ok ts →
  ∃ r h',
    get_csv_data read_csv to_datetime file_path delim false false h
    = Ok (r, h') ∧
    h' !! r = Some {| index := ts;
                      columns := zip intraday_schema
                                   [v0; v1; v2; v3; v4; v5; v6; v7; v8] |}.
Proof.
  intros Hread Htext Hts. unfold get_csv_data.
  erewrite bind_ok; [|by apply read_csv_run].
  match goal with
  | |- context [h ++ [?d]] => pose proof (alloc_lookup h d) as H
  end.
  unfold df_set_columns, df_getitem, df_setitem, df_set_index_inplace.
  step_update H (frame_set_columns intraday_schema).
  step_inspect H.
  step_inspect H.
  rewrite ?bind_assoc.
  erewrite bind_ok; [|unfold lift; by rewrite Htext].
  rewrite ?bind_assoc.
  erewrite bind_ok; [|unfold lift, pd_to_datetime; by rewrite Hts].
  step_update H (frame_setitem "Datetime" ts).
  step_update H (frame_set_index "Datetime").
  eexists _, _. split; [reflexivity|]. exact H.
Qed.

(** X10. Without the reduce flag, [get_csv_data] on a file of the schema's
    width whose timestamps parse returns the cells of the file under the names
    of the schema, in order, indexed by the parsed timestamps; [Datetime] is
    the index and not a column. *)
Theorem get_csv_data_keeps_schema_columns read_csv to_datetime file_path delim
    (dailyBars : bool) (h : heap) d text ts :
  read_csv file_path delim = Ok d →
  length (columns d) = length (schema dailyBars) →
  csv_text dailyBars d = Ok text →
  mapM (to_datetime None) text = Ok ts →
  ∃ r h',
    get_csv_data read_csv to_datetime file_path delim dailyBars false h
    = Ok (r, h') ∧
    h' !! r = Some {| index := ts;
                      columns := zip (schema dailyBars) (columns d).*2 |}.
Proof.
  intros Hread Hlen Htext Hts. destruct d as [idx cols], dailyBars;
    simpl in Hlen.
  - do 9 (destruct cols as [|[? ?] cols]; try done).
    simpl in Htext. injection Htext as <-.
    by eapply get_csv_data_keep_daily.
  - do 10 (destruct cols as [|[? ?] cols]; try done).
    unfold csv_text in Htext. simpl in Htext.
    by eapply get_csv_data_keep_intraday.
Qed.

Lemma get_csv_data_keeps_schema_columns_witness :
  ∃ r h',
    get_csv_data (sample_read_csv sample_daily_file) sample_to_datetime
      "bars.csv" None true false []
    = Ok (r, h') ∧
    h' !! r = Some {| index := [STime 20240102; STime 20240103;
                                STime 20240104];
                      columns := zip daily_schema
                                   (columns sample_daily_file).*2 |}.
Proof.
  apply (get_csv_data_keeps_schema_columns (sample_read_csv sample_daily_file)
           sample_to_datetime "bars.csv" None true [] sample_daily_file
           [SStr "20240102"; SStr "20240103"; SStr "20240104"]);
    reflexivity.
Defined.

Lemma set_columns_after_alloc names d (h : heap) :
  update (length h) (frame_set_columns names) (h ++ [d])
  = match frame_set_columns names d with
    | Ok d' => Ok (tt, h ++ [d'])
    | Raise e => Raise e
    end.
Proof.
  unfold update, deref. rewrite bind_run, alloc_lookup.
  destruct (frame_set_columns names d) as [d'|e]; [|done].
  rewrite bind_run. unfold lift, assign.
  rewrite insert_app_r_alt by lia.
  by replace (length h - length h)%nat with 0%nat by lia.
Qed.

Lemma frame_set_columns_cells names d1 d2 :
  index d1 = index d2 → (columns d1).*2 = (columns d2).*2 →
  frame_set_columns names d1 = frame_set_columns names d2.
Proof.
  intros Hi Hc. unfold frame_set_columns. rewrite Hi, Hc.
  assert (length (columns d1) = length (columns d2)) as ->; [|done].
  by rewrite <- (length_fmap snd (columns d1)), Hc, length_fmap.
Qed.

(** X11. [get_csv_data] never looks at the header of the file: two files with
    the same cells and row index give the same result, errors included,
    whatever their column names, paths and delimiters. *)
Theorem get_csv_data_ignores_header read_csv1 read_csv2 to_datetime
    file_path1 file_path2 delim1 delim2 (dailyBars drop : bool) (h : heap)
    d1 d2 :
  read_csv1 file_path1 delim1 = Ok d1 →
  read_csv2 file_path2 delim2 = Ok d2 →
  index d1 = index d2 →
  (columns d1).*2 = (columns d2).*2 →
  get_csv_data read_csv1 to_datetime file_path1 delim1 dailyBars drop h
  = get_csv_data read_csv2 to_datetime file_path2 delim2 dailyBars drop h.
Proof.
  intros H1 H2 Hi Hc. unfold get_csv_data.
  rewrite (bind_ok _ _ _ _ _ (read_csv_run read_csv1 _ _ h d1 H1)),
    (bind_ok _ _ _ _ _ (read_csv_run read_csv2 _ _ h d2 H2)).
  destruct dailyBars; rewrite !bind_assoc, !bind_run; unfold df_set_columns;
    rewrite !set_columns_after_alloc;
    by rewrite (frame_set_columns_cells _ d1 d2).
Qed.

Lemma get_csv_data_ignores_header_witness :
  get_csv_data (sample_read_csv sample_daily_file) sample_to_datetime
    "bars.csv" None true true []
  = get_csv_data (sample_read_csv sample_renamed_file) sample_to_datetime
      "other.csv" (Some ",") true true [].
Proof.
  apply (get_csv_data_ignores_header (sample_read_csv sample_daily_file)
           (sample_read_csv sample_renamed_file) sample_to_datetime
           "bars.csv" "other.csv" None (Some ",") true true []
           sample_daily_file sample_renamed_file); reflexivity.
Defined.

(** X12. With the reduce flag set, [get_csv_data] on a well-formed file whose
    price column has a valid entry returns a [Price] column of the same length
    without a missing entry. *)
Theorem get_csv_data_leaves_no_gap read_csv to_datetime file_path delim
    (dailyBars : bool) (h : heap) d text ts prices :
  read_csv file_path delim = Ok d →
  length (columns d) = length (schema dailyBars) →
  csv_text dailyBars d = Ok text →
  mapM (to_datetime None) text = Ok ts →
  (columns d).*2 !! (if dailyBars then 4 else 5)%nat = Some prices →
  Exists valid prices →
  ∃ r h' filled_prices,
    get_csv_data read_csv to_datetime file_path delim dailyBars true h
    = Ok (r, h') ∧
    h' !! r = Some {| index := ts; columns := [("Price", filled_prices)] |} ∧
    length filled_prices = length prices ∧
    Forall valid filled_prices.
Proof.
  intros Hread Hlen Htext Hts Hprices Hvalid.
  destruct d as [idx cols], dailyBars; simpl in Hlen.
  - do 9 (destruct cols as [|[? ?] cols]; try done).
    simpl in Htext, Hprices. injection Htext as <-. injection Hprices as ->.
    edestruct get_csv_data_daily as (r & h' & Hrun & Hr); [done..|].
    exists r, h', (fill prices).
    split; [done|]. split; [done|].
    split; [apply fill_length | by apply fill_resolves].
  - do 10 (destruct cols as [|[? ?] cols]; try done).
    unfold csv_text in Htext. simpl in Htext, Hprices.
    injection Hprices as ->.
    edestruct get_csv_data_intraday as (r & h' & Hrun & Hr); [done..|].
    exists r, h', (fill prices).
    split; [done|]. split; [done|].
    split; [apply fill_length | by apply fill_resolves].
Qed.

Lemma get_csv_data_leaves_no_gap_witness :
  ∃ r h' filled_prices,
    get_csv_data (sample_read_csv sample_daily_file) sample_to_datetime
      "bars.csv" None true true []
    = Ok (r, h') ∧
    h' !! r = Some {| index := [STime 20240102; STime 20240103;
                                STime 20240104];
                      columns := [("Price", filled_prices)] |} ∧
    length filled_prices = 3%nat ∧
    Forall valid filled_prices.
Proof.
  apply (get_csv_data_leaves_no_gap (sample_read_csv sample_daily_file)
           sample_to_datetime "bars.csv" None true [] sample_daily_file
           [SStr "20240102"; SStr "20240103"; SStr "20240104"]
           [STime 20240102; STime 20240103; STime 20240104]
           [num 1 1; SNum nan; num 3 1]); try reflexivity.
  constructor. reflexivity.
Defined.

(** X13. When the file has the schema's width but its timestamp text cannot be
    built or parsed, [get_csv_data] raises that error, whatever the reduce
    flag. *)
Theorem get_csv_data_bad_timestamp_raises read_csv to_datetime file_path delim
    (dailyBars drop : bool) (h : heap) d e :
  read_csv file_path delim = Ok d →
  length (columns d) = length (schema dailyBars) →
  (text ← csv_text dailyBars d; mapM (to_datetime None) text) = Raise e →
  get_csv_data read_csv to_datetime file_path delim dailyBars drop h = Raise e.
Proof.
  intros Hread Hlen Hts. destruct d as [idx cols], dailyBars; simpl in Hlen.
  - do 9 (destruct cols as [|[? ?] cols]; try done).
    simpl in Hts. unfold get_csv_data.
    erewrite bind_ok; [|by apply read_csv_run].
    match goal with
    | |- context [h ++ [?d]] => pose proof (alloc_lookup h d) as H
    end.
    unfold df_set_columns, df_getitem.
    step_update H (frame_set_columns daily_schema).
    step_inspect H.
    rewrite ?bind_assoc. apply bind_raise.
    unfold lift, pd_to_datetime. by rewrite Hts.
  - do 10 (destruct cols as [|[? ?] cols]; try done).
    unfold csv_text in Hts. simpl in Hts. unfold get_csv_data.
    erewrite bind_ok; [|by apply read_csv_run].
    match goal with
    | |- context [h ++ [?d]] => pose proof (alloc_lookup h d) as H
    end.
    unfold df_set_columns, df_getitem.
    step_update H (frame_set_columns intraday_schema).
    step_inspect H.
    step_inspect H.
    rewrite ?bind_assoc.
    match type of Hts with
    | (?m ≫= _) = _ => destruct m as [text|e'] eqn:Htext
    end.
    + change (mapM (to_datetime None) text = Raise e) in Hts.
      erewrite bind_ok; [|reflexivity].
      rewrite ?bind_assoc. apply bind_raise.
      unfold lift, pd_to_datetime. by rewrite Hts.
    + injection Hts as <-. by apply bind_raise.
Qed.

Lemma get_csv_data_bad_timestamp_raises_witness :
  get_csv_data (sample_read_csv sample_bad_date_file) sample_to_datetime
    "bars.csv" None true true []
  = Raise (ValueError "Unknown datetime string format").
Proof.
  apply (get_csv_data_bad_timestamp_raises
           (sample_read_csv sample_bad_date_file) sample_to_datetime
           "bars.csv" None true true [] sample_bad_date_file); reflexivity.
Defined.

(** * More on the platform adapter *)

Lemma set_column_absent label values (cols : list (string * list scalar)) :
  label ∉ cols.*1 → set_column label values cols = cols ++ [(label, values)].
Proof. intros H. unfold set_column. by rewrite decide_False. Qed.

Lemma find_label_absent label (cols : list (string * list scalar)) :
  label ∉ cols.*1 → list_find (λ c, c.1 = label) cols = None.
Proof.
  intros H. apply list_find_None, Forall_forall. intros [l v] Hin E.
  simpl in E. subst l. apply H, list_elem_of_fmap. by exists (label, v).
Qed.

Lemma column_appended label values idx (cols : list (string * list scalar)) :
  label ∉ cols.*1 →
  column {| index := idx; columns := cols ++ [(label, values)] |} label
  = Some values.
Proof.
  intros H. unfold column. simpl.
  rewrite list_find_app_r by (by apply find_label_absent).
  simpl. by rewrite decide_True.
Qed.

Lemma filter_appended label values (cols : list (string * list scalar)) :
  label ∉ cols.*1 →
  filter (λ c, c.1 ≠ label) (cols ++ [(label, values)]) = cols.
Proof.
  intros H. rewrite filter_app, filter_cons, decide_False by (by intros ?).
  rewrite filter_nil, app_nil_r.
  induction cols as [|[l v] cols IH]; [done|].
  rewrite fmap_cons, not_elem_of_cons in H. destruct H as [Hl Hcols].
  rewrite filter_cons, decide_True by (by intros ?). by rewrite IH.
Qed.

Lemma get_mt5_data_fetched to_datetime mt5 symbol timeframe bar_time
    start_date end_date start_pos end_pos (drop : bool) (h : heap)
    rates times ts :
  timeframes mt5 !! timeframe = Some bar_time →
  copy_rates_from_pos mt5 symbol bar_time start_pos end_pos = Some rates →
  "Datetime" ∉ rates.*1 →
  field rates "time" = Some times →
  mapM (to_datetime (Some "s")) times = Ok ts →
  ∃ r h',
    get_mt5_data to_datetime mt5 true symbol timeframe start_date end_date
      (Some start_pos) (Some end_pos) drop h
    = Ok (Some r, h') ∧
    h' !! r = Some (frame_rename "close" "Price"
                      (if drop
                       then kept {| index := ts; columns := rates |} "close"
                       else {| index := ts; columns := rates |})).
Proof.
  intros Htf Hrates Hdt Htime Hts. unfold get_mt5_data.
  cbn [negb]. rewrite Htf.
  rewrite Hrates.
  unfold pd_DataFrame. erewrite bind_ok; [|reflexivity].
  match goal with
  | |- context [h ++ [?d]] => pose proof (alloc_lookup h d) as H
  end.
  unfold df_getitem. erewrite bind_ok; cycle 1.
  { eapply inspect_run; [exact H|]. unfold frame_getitem, column. simpl.
    fold (field rates "time"). by rewrite Htime. }
  erewrite bind_ok; [|unfold lift, pd_to_datetime; by rewrite Hts].
  unfold df_setitem.
  edestruct (update_spec (length h) (frame_setitem "Datetime" ts))
    as (h1 & Hrun1 & H1 & _); [exact H | reflexivity |].
  erewrite bind_ok; [|exact Hrun1]. clear Hrun1 H.
  simpl in H1. rewrite set_column_absent in H1 by done.
  unfold df_set_index_inplace.
  edestruct (update_spec (length h) (frame_set_index "Datetime"))
    as (h2 & Hrun2 & H2 & _);
    [exact H1 | unfold frame_set_index; by rewrite column_appended |].
  erewrite bind_ok; [|exact Hrun2]. clear Hrun2 H1.
  simpl in H2. rewrite filter_appended in H2 by done.
  destruct drop.
  - destruct (drop_all_except_spec _ _ _ "close" H2)
      as (h3 & Hrun3 & H3 & _).
    erewrite bind_ok; [|by erewrite bind_ok].
    unfold df_rename. erewrite bind_ok; [|by apply derive_run].
    eexists _, _. split; [reflexivity|]. apply alloc_lookup.
  - erewrite bind_ok; [|reflexivity].
    unfold df_rename. erewrite bind_ok; [|by apply derive_run].
    eexists _, _. split; [reflexivity|]. apply alloc_lookup.
Qed.

(** X14. With the reduce flag set, a known timeframe and a position range,
    [get_mt5_data] returns the [close] field of the answer under the name
    [Price], entry for entry as the terminal gave it, indexed by the converted
    [time] field. *)
Theorem get_mt5_data_returns_close_as_is to_datetime mt5 symbol timeframe
    bar_time start_date end_date start_pos end_pos (h : heap)
    rates times closes ts :
  timeframes mt5 !! timeframe = Some bar_time →
  copy_rates_from_pos mt5 symbol bar_time start_pos end_pos = Some rates →
  NoDup rates.*1 →
  "Datetime" ∉ rates.*1 →
  field rates "time" = Some times →
  field rates "close" = Some closes →
  mapM (to_datetime (Some "s")) times = Ok ts →
  ∃ r h',
    get_mt5_data to_datetime mt5 true symbol timeframe start_date end_date
      (Some start_pos) (Some end_pos) true h
    = Ok (Some r, h') ∧
    h' !! r = Some {| index := ts; columns := [("Price", closes)] |}.
Proof.
  intros Htf Hrates Hnd Hdt Htime Hclose Hts.
  destruct (get_mt5_data_fetched to_datetime mt5 symbol timeframe bar_time
              start_date end_date start_pos end_pos true h rates times ts)
    as (r & h' & Hrun & Hr); [done..|].
  exists r, h'. split; [done|].
  by rewrite (kept_single {| index := ts; columns := rates |} "close" closes)
    in Hr.
Qed.

Lemma get_mt5_data_returns_close_as_is_witness :
  ∃ r h',
    get_mt5_data sample_to_datetime sample_mt5 true "EURUSD" "H4" None None
      (Some 0%Z) (Some 3%Z) true []
    = Ok (Some r, h') ∧
    h' !! r = Some {| index := [STime 0; STime 60; STime 120];
                      columns := [("Price", [num 1 1; SNum nan; num 3 1])] |}.
Proof.
  apply (get_mt5_data_returns_close_as_is sample_to_datetime sample_mt5
           "EURUSD" "H4" 16388%Z None None 0%Z 3%Z [] sample_rates
           [SInt 0; SInt 60; SInt 120] [num 1 1; SNum nan; num 3 1]);
    try reflexivity.
  - apply (bool_decide_unpack _). vm_compute. exact I.
  - apply (bool_decide_unpack _). vm_compute. exact I.
Defined.

(** X15. Without the reduce flag, [get_mt5_data] returns every field of the
    answer in order, [time] included, with the same cells; only the label
    [close] becomes [Price]. *)
Theorem get_mt5_data_keeps_other_fields to_datetime mt5 symbol timeframe
    bar_time start_date end_date start_pos end_pos (h : heap)
    rates times ts :
  timeframes mt5 !! timeframe = Some bar_time →
  copy_rates_from_pos mt5 symbol bar_time start_pos end_pos = Some rates →
  "Datetime" ∉ rates.*1 →
  field rates "time" = Some times →
  mapM (to_datetime (Some "s")) times = Ok ts →
  ∃ r h' d',
    get_mt5_data to_datetime mt5 true symbol timeframe start_date end_date
      (Some start_pos) (Some end_pos) false h
    = Ok (Some r, h') ∧
    h' !! r = Some d' ∧
    index d' = ts ∧
    labels d' = (λ l, if decide (l = "close") then "Price" else l) <$> rates.*1 ∧
    (columns d').*2 = rates.*2.
Proof.
  intros Htf Hrates Hdt Htime Hts.
  destruct (get_mt5_data_fetched to_datetime mt5 symbol timeframe bar_time
              start_date end_date start_pos end_pos false h rates times ts)
    as (r & h' & Hrun & Hr); [done..|].
  eexists r, h', _. split; [done|]. split; [done|]. split; [done|].
  unfold labels. simpl. rewrite <- !list_fmap_compose.
  split; apply list_fmap_ext; by intros _ [l v] _.
Qed.

Lemma get_mt5_data_keeps_other_fields_witness :
  ∃ r h' d',
    get_mt5_data sample_to_datetime sample_mt5 true "EURUSD" "H4" None None
      (Some 0%Z) (Some 3%Z) false []
    = Ok (Some r, h') ∧
    h' !! r = Some d' ∧
    labels d' = ["time"; "open"; "high"; "low"; "Price"; "tick_volume";
                 "spread"; "real_volume"].
Proof.
  destruct (get_mt5_data_keeps_other_fields sample_to_datetime sample_mt5
              "EURUSD" "H4" 16388%Z None None 0%Z 3%Z [] sample_rates
              [SInt 0; SInt 60; SInt 120] [STime 0; STime 60; STime 120])
    as (r & h' & d' & Hrun & Hr & _ & Hl & _); try reflexivity.
  - apply (bool_decide_unpack _). vm_compute. exact I.
  - by exists r, h', d'.
Defined.

(** X16. [get_mt5_data] does not turn every failure into [None]: an answer
    without a [time] field raises [KeyError], and a [time] field that cannot
    be converted raises the converter's error. *)
Theorem get_mt5_data_can_raise to_datetime mt5 symbol timeframe bar_time
    start_date end_date start_pos end_pos drop (h : heap) rates :
  timeframes mt5 !! timeframe = Some bar_time →
  copy_rates_from_pos mt5 symbol bar_time start_pos end_pos = Some rates →
  (field rates "time" = None →
   get_mt5_data to_datetime mt5 true symbol timeframe start_date end_date
     (Some start_pos) (Some end_pos) drop h
   = Raise (KeyError "time"))
  ∧ (∀ times e,
       field rates "time" = Some times →
       mapM (to_datetime (Some "s")) times = Raise e →
       get_mt5_data to_datetime mt5 true symbol timeframe start_date end_date
         (Some start_pos) (Some end_pos) drop h
       = Raise e).
Proof.
  intros Htf Hrates. unfold get_mt5_data. cbn [negb]. rewrite Htf, Hrates.
  unfold pd_DataFrame. erewrite bind_ok; [|reflexivity].
  match goal with
  | |- context [h ++ [?d]] => pose proof (alloc_lookup h d) as H
  end.
  unfold df_getitem, inspect, deref. rewrite !bind_assoc, bind_run, H.
  unfold frame_getitem, column. simpl. fold (field rates "time").
  split.
  - intros ->. reflexivity.
  - intros times e -> Hts. rewrite bind_run. cbn [lift].
    apply bind_raise. unfold lift, pd_to_datetime. by rewrite Hts.
Qed.

Lemma get_mt5_data_can_raise_witness :
  get_mt5_data sample_to_datetime untimed_mt5 true "EURUSD" "M5" None None
    (Some 0%Z) (Some 3%Z) true []
  = Raise (KeyError "time").
Proof.
  apply (get_mt5_data_can_raise sample_to_datetime untimed_mt5 "EURUSD" "M5"
           5%Z None None 0%Z 3%Z true [] sample_untimed_rates);
    reflexivity.
Defined.

(** X17. When the two positions are given, the two dates play no part:
    [get_mt5_data] returns what it returns without them. *)
Theorem get_mt5_data_position_range_wins to_datetime mt5 authorized symbol
    timeframe start_date end_date start_pos end_pos drop (h : heap) :
  get_mt5_data to_datetime mt5 authorized symbol timeframe
    start_date end_date (Some start_pos) (Some end_pos) drop h
  = get_mt5_data to_datetime mt5 authorized symbol timeframe
      None None (Some start_pos) (Some end_pos) drop h.
Proof.
  unfold get_mt5_data. destruct authorized; [|done]. cbn [negb].
  destruct (timeframes mt5 !! timeframe); [|done].
  by destruct start_date, end_date.
Qed.

(** X18. When the request that counts answers [None] (the position request if
    both positions are given, else the date request), [get_mt5_data] returns
    [None] and builds no table. *)
Theorem get_mt5_data_no_answer to_datetime mt5 symbol timeframe bar_time
    start_date end_date start_pos end_pos drop (h : heap) :
  timeframes mt5 !! timeframe = Some bar_time →
  (copy_rates_from_pos mt5 symbol bar_time start_pos end_pos = None →
   get_mt5_data to_datetime mt5 true symbol timeframe
     (Some start_date) (Some end_date) (Some start_pos) (Some end_pos) drop h
   = Ok (None, h))
  ∧ (copy_rates_range mt5 symbol bar_time start_date end_date = None →
     get_mt5_data to_datetime mt5 true symbol timeframe
       (Some start_date) (Some end_date) None None drop h
     = Ok (None, h)).
Proof.
  intros Htf. unfold get_mt5_data. cbn [negb]. rewrite Htf.
  split; by intros ->.
Qed.

Lemma get_mt5_data_no_answer_witness :
  get_mt5_data sample_to_datetime silent_mt5 true "EURUSD" "D1"
    (Some 0%Z) (Some 86400%Z) (Some 0%Z) (Some 3%Z) true []
  = Ok (None, []).
Proof.
  apply (get_mt5_data_no_answer sample_to_datetime silent_mt5 "EURUSD" "D1"
           16408%Z 0%Z 86400%Z 0%Z 3%Z true []); reflexivity.
Defined.

(** * More on the range mapper *)

Lemma is_nan_Prim2SF (x : float) : is_nan x = true ↔ Prim2SF x = S754_nan.
Proof.
  unfold Prim2SF. destruct (is_nan x); [done|]. split; [done|].
  destruct (is_zero x); [done|]. destruct (is_infinity x); [done|].
  destruct (Z.frexp x) as [r exp].
  destruct (shr_fexp _ _ _ _ _) as [shr e'].
  by destruct (shr_m shr).
Qed.

Lemma nan_ltb_l (x y : float) : is_nan x = true → (x <? y)%float = false.
Proof.
  intros H%is_nan_Prim2SF. by rewrite ltb_spec, H.
Qed.

Lemma nan_ltb_r (x y : float) : is_nan y = true → (x <? y)%float = false.
Proof.
  intros H%is_nan_Prim2SF. rewrite ltb_spec, H. by destruct (Prim2SF x).
Qed.

Lemma nan_sub_l (x y : float) : is_nan x = true → is_nan (x - y) = true.
Proof.
  rewrite !is_nan_Prim2SF, sub_spec. by intros ->.
Qed.

Lemma nan_div_l (x y : float) : is_nan x = true → is_nan (x / y) = true.
Proof.
  rewrite !is_nan_Prim2SF, div_spec. by intros ->.
Qed.

Lemma nan_mul_l (x y : float) : is_nan x = true → is_nan (x * y) = true.
Proof.
  rewrite !is_nan_Prim2SF, mul_spec. by intros ->.
Qed.

Lemma nan_add_l (x y : float) : is_nan x = true → is_nan (x + y) = true.
Proof.
  rewrite !is_nan_Prim2SF, add_spec. by intros ->.
Qed.

(** X19. [scale] does not clamp a not-a-number value: with a source range of
    non-zero width it returns not-a-number. *)
Theorem scale_propagates_nan (val lo hi dlo dhi : float) :
  is_nan val = true →
  (hi - lo =? 0)%float = false →
  ∃ r, scale val [lo; hi] [dlo; dhi] = Ok r ∧ is_nan r = true.
Proof.
  intros Hnan Hrange. unfold scale, getitem, truediv. simpl.
  rewrite (nan_ltb_l _ _ Hnan), (nan_ltb_r _ _ Hnan), Hrange.
  eexists. split; [reflexivity|].
  by apply nan_add_l, nan_mul_l, nan_div_l, nan_sub_l.
Qed.

Lemma scale_propagates_nan_witness :
  ∃ r, scale nan [ratio 0 1; ratio 100 1] [ratio 0 1; ratio 1 1] = Ok r
       ∧ is_nan r = true.
Proof.
  apply (scale_propagates_nan nan (ratio 0 1) (ratio 100 1) (ratio 0 1)
           (ratio 1 1)); reflexivity.
Defined.

(** X20. With a source range of zero width, [scale] raises [ZeroDivisionError]
    for a value that is not outside the range, before it reads the destination
    range, and still clamps a value outside it. *)
Theorem scale_degenerate_range (val lo hi : float) (dst : list float) :
  (hi - lo =? 0)%float = true →
  ((val <? lo)%float = false → (hi <? val)%float = false →
   scale val [lo; hi] dst = Raise ZeroDivisionError)
  ∧ ((val <? lo)%float = true → scale val [lo; hi] dst = getitem dst 0)
  ∧ ((val <? lo)%float = false → (hi <? val)%float = true →
     scale val [lo; hi] dst = getitem dst 1).
Proof.
  intros Hzero. unfold scale, truediv. simpl.
  repeat split.
  - by intros -> ->; rewrite Hzero.
  - by intros ->.
  - by intros -> ->.
Qed.

Lemma scale_degenerate_range_witness :
  scale (ratio 5 1) [ratio 5 1; ratio 5 1] [ratio 0 1; ratio 1 1]
  = Raise ZeroDivisionError
  ∧ scale (ratio 4 1) [ratio 5 1; ratio 5 1] [ratio 0 1; ratio 1 1]
    = Ok (ratio 0 1)
  ∧ scale (ratio 6 1) [ratio 5 1; ratio 5 1] [ratio 0 1; ratio 1 1]
    = Ok (ratio 1 1).
Proof.
  destruct (scale_degenerate_range (ratio 5 1) (ratio 5 1) (ratio 5 1)
              [ratio 0 1; ratio 1 1] eq_refl) as (Hin & _ & _).
  destruct (scale_degenerate_range (ratio 4 1) (ratio 5 1) (ratio 5 1)
              [ratio 0 1; ratio 1 1] eq_refl) as (_ & Hlow & _).
  destruct (scale_degenerate_range (ratio 6 1) (ratio 5 1) (ratio 5 1)
              [ratio 0 1; ratio 1 1] eq_refl) as (_ & _ & Hhigh).
  split; [by apply Hin|]. split; [by rewrite Hlow | by rewrite Hhigh].
Defined.

(** X21. [scale] reads the first two elements of each sequence only: further
    elements change nothing, and a sequence too short for the element it needs
    raises [IndexError]. *)
Theorem scale_reads_two_of_each (val lo hi dlo dhi : float)
    (more more' : list float) :
  scale val (lo :: hi :: more) (dlo :: dhi :: more')
  = scale val [lo; hi] [dlo; dhi]
  ∧ scale val [] (dlo :: dhi :: more') = Raise IndexError
  ∧ ((val <? lo)%float = false →
     scale val [lo] (dlo :: dhi :: more') = Raise IndexError)
  ∧ ((val <? lo)%float = true → scale val (lo :: more) [] = Raise IndexError)
  ∧ ((val <? lo)%float = false → (hi <? val)%float = true →
     scale val (lo :: hi :: more) [dlo] = Raise IndexError).
Proof.
  unfold scale, getitem. simpl. repeat split.
  - by intros ->.
  - by intros ->.
  - by intros -> ->.
Qed.

Lemma scale_reads_two_of_each_witness :
  scale (ratio 1 1) [ratio 0 1] [ratio 0 1; ratio 1 1] = Raise IndexError
  ∧ scale (ratio 0 1) [ratio 1 1; ratio 2 1] [] = Raise IndexError.
Proof.
  destruct (scale_reads_two_of_each (ratio 1 1) (ratio 0 1) (ratio 0 1)
              (ratio 0 1) (ratio 1 1) [] []) as (_ & _ & Hsrc & _).
  destruct (scale_reads_two_of_each (ratio 0 1) (ratio 1 1) (ratio 2 1)
              (ratio 0 1) (ratio 1 1) [ratio 2 1] []) as (_ & _ & _ & Hdst & _).
  split; [by apply Hsrc | by apply Hdst].
Defined.

(** * More on the display formatter *)

(** X22. For every float that is not not-a-number, [to_percent] returns the
    text of [to_percent_num] followed by a percent sign. *)
Theorem to_percent_is_to_percent_num_with_sign (number : float) :
  is_nan number = false →
  ∃ s, to_percent_num number = Ok s ∧ to_percent number = Ok (s ++ "%")%string.
Proof.
  intros H. unfold to_percent, to_percent_num. rewrite H.
  by eexists.
Qed.

Lemma to_percent_is_to_percent_num_with_sign_witness :
  ∃ s, to_percent_num (ratio 1 3) = Ok s
       ∧ to_percent (ratio 1 3) = Ok (s ++ "%")%string.
Proof.
  apply (to_percent_is_to_percent_num_with_sign (ratio 1 3)). reflexivity.
Defined.

Lemma parse_format_spec_negative p :
  parse_format_spec ("." ++ str (Z.neg p) ++ "f")
  = Raise (ValueError "Format specifier missing precision").
Proof. reflexivity. Qed.

(** The format specification built for a positive number of decimals is
    read back as that number. *)
Lemma get_integer_str p :
  ∃ d, d ≠ Nil ∧ N.of_uint d = N.pos p ∧
       get_integer (str (Z.pos p) ++ "f") = (d, "f").
Proof.
  exists (Pos.to_uint p). unfold str. cbn [Z.to_int NilZero.string_of_int].
  pose proof (DecimalPos.Unsigned.to_uint_nonnil p) as Hnil.
  split; [done|]. split; [apply DecimalPos.Unsigned.of_to|].
  assert (NilZero.string_of_uint (Pos.to_uint p)
          = NilEmpty.string_of_uint (Pos.to_uint p)) as ->
    by (unfold NilZero.string_of_uint; by destruct (Pos.to_uint p)).
  by apply get_integer_digits.
Qed.

Lemma parse_format_spec_too_big p :
  (INT_MAX < Z.pos p ≤ PY_SSIZE_T_MAX)%Z →
  parse_format_spec ("." ++ str (Z.pos p) ++ "f")
  = Raise (ValueError "precision too big").
Proof.
  intros [Hbig Hfit]. destruct (get_integer_str p) as (d & Hnil & Hof & Hget).
  change ("." ++ ?s)%string with (String "."%char s).
  unfold parse_format_spec. rewrite Hget, Hof.
  change (Z.of_N (N.pos p)) with (Z.pos p).
  destruct (PY_SSIZE_T_MAX <? Z.pos p)%Z eqn:Hcmp1; [lia|].
  destruct (INT_MAX <? Z.pos p)%Z eqn:Hcmp2; [|lia].
  by destruct d.
Qed.

Lemma parse_format_spec_overflow p :
  (PY_SSIZE_T_MAX < Z.pos p)%Z →
  parse_format_spec ("." ++ str (Z.pos p) ++ "f")
  = Raise (ValueError "Too many decimal digits in format string").
Proof.
  intros Hbig. destruct (get_integer_str p) as (d & Hnil & Hof & Hget).
  change ("." ++ ?s)%string with (String "."%char s).
  unfold parse_format_spec. rewrite Hget, Hof.
  change (Z.of_N (N.pos p)) with (Z.pos p).
  destruct (PY_SSIZE_T_MAX <? Z.pos p)%Z eqn:Hcmp1; [|lia].
  by destruct d.
Qed.

(** X23. For every float that is not not-a-number, [to_float] raises a
    [ValueError] when [decimals] is negative and when it exceeds [INT_MAX]:
    "Format specifier missing precision" for a negative [decimals] down to
    [- PY_SSIZE_T_MAX], "precision too big" for a [decimals] above [INT_MAX]
    up to [PY_SSIZE_T_MAX]. *)
Theorem to_float_refuses_decimals (number : float) (decimals : Z) :
  is_nan number = false →
  ((- PY_SSIZE_T_MAX ≤ decimals < 0)%Z →
   to_float number decimals
   = Raise (ValueError "Format specifier missing precision"))
  ∧ ((INT_MAX < decimals ≤ PY_SSIZE_T_MAX)%Z →
     to_float number decimals = Raise (ValueError "precision too big"))
  ∧ ((decimals < 0 ∨ INT_MAX < decimals)%Z →
     ∃ msg, to_float number decimals = Raise (ValueError msg)).
Proof.
  intros H. unfold to_float, format. rewrite H.
  assert (0 < INT_MAX)%Z by done.
  split; [|split].
  - intros Hd. destruct decimals as [|p|p]; [lia..|].
    by rewrite parse_format_spec_negative.
  - intros Hd. destruct decimals as [|p|p]; [lia| |lia].
    by rewrite parse_format_spec_too_big.
  - intros Hd. destruct decimals as [|p|p]; [lia| |].
    + destruct (Z.le_gt_cases (Z.pos p) PY_SSIZE_T_MAX).
      * rewrite parse_format_spec_too_big by lia. by eexists.
      * rewrite parse_format_spec_overflow by lia. by eexists.
    + rewrite parse_format_spec_negative. by eexists.
Qed.

Lemma to_float_refuses_decimals_witness :
  to_float (ratio 3 2) (-2)
  = Raise (ValueError "Format specifier missing precision")
  ∧ to_float (ratio 3 2) 4294967296 = Raise (ValueError "precision too big")
  ∧ ∃ msg, to_float (ratio 3 2) 9223372036854775808 = Raise (ValueError msg).
Proof.
  destruct (to_float_refuses_decimals (ratio 3 2) (-2) eq_refl)
    as (Hneg & _ & _).
  destruct (to_float_refuses_decimals (ratio 3 2) 4294967296 eq_refl)
    as (_ & Hbig & _).
  destruct (to_float_refuses_decimals (ratio 3 2) 9223372036854775808 eq_refl)
    as (_ & _ & Hany).
  split; [|split].
  - apply Hneg. unfold PY_SSIZE_T_MAX. lia.
  - apply Hbig. unfold INT_MAX, PY_SSIZE_T_MAX. lia.
  - apply Hany. right. reflexivity.
Defined.

Lemma length_zeros n : String.length (zeros n) = n.
Proof. induction n as [|n IH]; simpl; [done | by rewrite IH]. Qed.

Lemma string_length_app (a b : string) :
  String.length (a ++ b) = (String.length a + String.length b)%nat.
Proof. induction a as [|c a IH]; simpl; [done | by rewrite IH]. Qed.

Lemma substring_length n m (s : string) :
  (n + m ≤ String.length s)%nat → String.length (substring n m s) = m.
Proof.
  revert n m. induction s as [|c s IH]; intros [|n] [|m]; simpl; intros H;
    try lia; try done.
  - f_equal. apply IH. simpl. lia.
  - apply IH. lia.
  - apply IH. lia.
Qed.

Lemma all_digits_zeros n : all_digits (zeros n).
Proof. induction n; simpl; [done|]. split; [by eexists | done]. Qed.

Lemma all_digits_app (a b : string) :
  all_digits a → all_digits b → all_digits (a ++ b).
Proof. induction a as [|c a IH]; simpl; [done|]. intros [? ?] ?. auto. Qed.

Lemma all_digits_substring n m (s : string) :
  all_digits s → all_digits (substring n m s).
Proof.
  revert n m. induction s as [|c s IH]; intros [|n] [|m]; simpl; try done.
  - intros [? ?]. split; [done|]. by apply IH.
  - intros [? ?]. by apply IH.
  - intros [? ?]. by apply IH.
Qed.

Lemma all_digits_of_uint d : all_digits (NilZero.string_of_uint d).
Proof.
  assert (∀ d, all_digits (NilEmpty.string_of_uint d)) as H.
  { clear d. induction d; simpl; try done; (split; [by eexists | done]). }
  destruct d; try apply H. simpl. split; [by eexists | done].
Qed.

(** The shape of a fixed-point rendering with at least one decimal. *)
Lemma fixed_point_shape q (precision : N) :
  precision ≠ 0%N →
  ∃ whole frac,
    fixed_point q precision = (whole ++ "." ++ frac)%string ∧
    all_digits whole ∧ whole ≠ "" ∧
    all_digits frac ∧ String.length frac = N.to_nat precision.
Proof.
  intros Hp. unfold fixed_point.
  set (p := N.to_nat precision).
  set (digits := NilZero.string_of_uint (N.to_uint (Z.to_N q))).
  set (ds := (zeros (S p - String.length digits) ++ digits)%string).
  assert (S p ≤ String.length ds)%nat as Hlen
    by (unfold ds; rewrite string_length_app, length_zeros; lia).
  assert (all_digits ds) as Hds
    by (apply all_digits_app; [apply all_digits_zeros | apply all_digits_of_uint]).
  rewrite decide_False by lia.
  eexists _, _. split; [reflexivity|].
  split; [by apply all_digits_substring|].
  split.
  - intros E. apply (f_equal String.length) in E.
    rewrite substring_length in E by lia. simpl in E. lia.
  - split; [by apply all_digits_substring|].
    apply substring_length. lia.
Qed.

Lemma Prim2SF_finite (x : float) :
  is_nan x = false → is_infinity x = false →
  (∃ s, Prim2SF x = S754_zero s) ∨ (∃ s m e, Prim2SF x = S754_finite s m e).
Proof.
  intros Hnan Hinf. unfold Prim2SF. rewrite Hnan, Hinf.
  destruct (is_zero x); [by left; eexists|].
  destruct (Z.frexp x) as [r exp].
  destruct (shr_fexp _ _ _ _ _) as [shr e'].
  destruct (shr_m shr); [left|right|left]; by repeat eexists.
Qed.

(** X24. For a finite float and [decimals] from 1 to [INT_MAX], [to_float]
    returns an optional minus sign, at least one digit, a point and exactly
    [decimals] digits. *)
Theorem to_float_shows_all_decimals (number : float) (decimals : Z) :
  is_nan number = false →
  is_infinity number = false →
  (1 ≤ decimals ≤ INT_MAX)%Z →
  ∃ sign whole frac,
    to_float number decimals = Ok (sign ++ whole ++ "." ++ frac)%string ∧
    (sign = "" ∨ sign = "-") ∧
    all_digits whole ∧ whole ≠ "" ∧
    all_digits frac ∧ String.length frac = Z.to_nat decimals.
Proof.
  intros Hnan Hinf Hd. unfold to_float, format. rewrite Hnan.
  rewrite parse_format_spec_precision by lia.
  cbn [mbind result_bind]. rewrite decide_False by done.
  unfold format_fixed.
  assert (Z.to_N decimals ≠ 0%N) as Hp by lia.
  assert (N.to_nat (Z.to_N decimals) = Z.to_nat decimals) as Hnat by lia.
  destruct (Prim2SF_finite number Hnan Hinf) as [[s ->]|(s & m & e & ->)].
  - destruct (fixed_point_shape 0 _ Hp) as (whole & frac & -> & ? & ? & ? & ?).
    exists (sign_text s), whole, frac.
    split; [done|]. split; [destruct s; [by right | by left]|].
    repeat split; try done. congruence.
  - destruct (fixed_point_shape (scaled_mantissa m e (Z.to_N decimals)) _ Hp)
      as (whole & frac & -> & ? & ? & ? & ?).
    exists (sign_text s), whole, frac.
    split; [done|]. split; [destruct s; [by right | by left]|].
    repeat split; try done. congruence.
Qed.

Lemma to_float_shows_all_decimals_witness :
  ∃ sign whole frac,
    to_float (- ratio 7 4)%float 3 = Ok (sign ++ whole ++ "." ++ frac)%string ∧
    (sign = "" ∨ sign = "-") ∧
    all_digits whole ∧ whole ≠ "" ∧
    all_digits frac ∧ String.length frac = 3%nat.
Proof.
  apply (to_float_shows_all_decimals (- ratio 7 4)%float 3); try reflexivity.
  vm_compute. split; discriminate.
Defined.

